(** * The MQTT serializer / deserializer wrappers of the shim

    A shallow embedding of
    [libraries/c_sdk/standard/mqtt/src/iot_mqtt_serializer_deserializer_wrapper.c]:
    the packet-identifier generator, the status translator
    [convertReturnCode], the seven serializer wrappers and the six
    deserializer wrappers, with the properties the specification states
    about them.

    The wire-format library ([mqtt_lightweight.h]) and the allocator
    ([IotMqtt_MallocMessage]) are collaborators of the file: they appear here
    as the fields of a class, and every theorem holds for every instance. *)

From Stdlib Require Import ZArith List Lia.
Import ListNotations.
Open Scope Z_scope.

(** ** Machine integers and pointers *)

Definition pointer := Z.
Definition NULL : pointer := 0.
Definition size_t := Z.

(** [( uint16_t ) x] and the wrap-around of [uint32_t] arithmetic. *)
Definition uint16 (x : Z) : Z := x mod 2 ^ 16.
Definition uint32 (x : Z) : Z := x mod 2 ^ 32.

(** ** The two status enumerations *)

(** [MQTTStatus_t], the wire-format library's result.  The enumerators are
    the ones the file names; a C enumeration can hold any value of its
    integer type, and the [default:] label of [convertReturnCode] is there
    for the rest: [MQTTUnrecognized raw] is a value that is no enumerator. *)
Inductive MQTTStatus_t : Type :=
| MQTTSuccess
| MQTTBadParameter
| MQTTNoMemory
| MQTTSendFailed
| MQTTRecvFailed
| MQTTBadResponse
| MQTTServerRefused
| MQTTNoDataAvailable
| MQTTIllegalState
| MQTTStateCollision
| MQTTKeepAliveTimeout
| MQTTUnrecognized (raw : Z).

(** [IotMqttError_t], the client-facing status: the enumerators the file
    assigns. *)
Inductive IotMqttError_t : Type :=
| IOT_MQTT_SUCCESS
| IOT_MQTT_BAD_PARAMETER
| IOT_MQTT_NO_MEMORY
| IOT_MQTT_NETWORK_ERROR
| IOT_MQTT_BAD_RESPONSE
| IOT_MQTT_SERVER_REFUSED
| IOT_MQTT_TIMEOUT.

Definition MQTTStatus_eq_dec (a b : MQTTStatus_t) : {a = b} + {a <> b}.
Proof. decide equality; apply Z.eq_dec. Defined.

Definition IotMqttError_eq_dec (a b : IotMqttError_t) : {a = b} + {a <> b}.
Proof. decide equality. Defined.

Definition MQTTStatus_eqb (a b : MQTTStatus_t) : bool :=
  if MQTTStatus_eq_dec a b then true else false.

(** [status == IOT_MQTT_SUCCESS] and the like. *)
Definition IotMqttError_eqb (a b : IotMqttError_t) : bool :=
  if IotMqttError_eq_dec a b then true else false.

(** ** [switch] with fall-through

    [convertReturnCode] is one [switch] whose sections assign [status] and
    usually, not always, end in [break].  The sections are kept as data and
    run by the C rule: control enters at the section carrying the matching
    [case] label (at [default] when there is none) and runs on through the
    following sections until a [break]. *)
Module Switch.

Inductive label : Type :=
  | case_ (v : MQTTStatus_t)
  | default_.

Inductive stmt : Type :=
  | assign_status (v : IotMqttError_t)
  | break.

Definition section : Type := (list label * list stmt)%type.

Definition is_case (v : MQTTStatus_t) (l : label) : bool :=
    match l with
    | case_ v' => MQTTStatus_eqb v v'
    | default_ => false
    end.

Definition is_default (l : label) : bool :=
    match l with
    | case_ _ => false
    | default_ => true
    end.

  (** The statements of one section: the value of [status] at its end and
      whether a [break] was met. *)
Fixpoint run_stmts (ss : list stmt) (status : IotMqttError_t)
    : IotMqttError_t * bool :=
    match ss with
    | [] => (status, false)
    | assign_status v :: rest => run_stmts rest v
    | break :: _ => (status, true)
    end.

  (** Execution from the start of a section to the first [break] or to the
      closing brace. *)
Fixpoint fall_through (secs : list section) (status : IotMqttError_t)
    : IotMqttError_t :=
    match secs with
    | [] => status
    | (_, ss) :: rest =>
        let (status', broke) := run_stmts ss status in
        if broke then status' else fall_through rest status'
    end.

  (** The sections from the first one that carries a label accepted by
      [here]. *)
Fixpoint jump_to (here : label -> bool) (secs : list section)
    : option (list section) :=
    match secs with
    | [] => None
    | (ls, ss) :: rest =>
        if existsb here ls then Some secs else jump_to here rest
    end.

Definition run (v : MQTTStatus_t) (secs : list section)
             (status : IotMqttError_t) : IotMqttError_t :=
    match jump_to (is_case v) secs with
    | Some entry => fall_through entry status
    | None =>
        match jump_to is_default secs with
        | Some entry => fall_through entry status
        | None => status
        end
    end.

End Switch.

Import Switch.

(** The body of the [switch( mqttStatus )] of [convertReturnCode], section
    by section as the file has it. *)
Definition convertReturnCode_switch : list section :=
  [ ([case_ MQTTSuccess],
     [assign_status IOT_MQTT_SUCCESS; break]);
    ([case_ MQTTBadParameter],
     [assign_status IOT_MQTT_BAD_PARAMETER; break]);
    ([case_ MQTTNoMemory],
     [assign_status IOT_MQTT_NO_MEMORY; break]);
    ([case_ MQTTSendFailed; case_ MQTTRecvFailed],
     [assign_status IOT_MQTT_NETWORK_ERROR; break]);
    ([case_ MQTTBadResponse],
     [assign_status IOT_MQTT_BAD_RESPONSE; break]);
    ([case_ MQTTServerRefused],
     [assign_status IOT_MQTT_SERVER_REFUSED; break]);
    ([case_ MQTTNoDataAvailable; case_ MQTTKeepAliveTimeout],
     [assign_status IOT_MQTT_TIMEOUT]);
    ([case_ MQTTIllegalState; case_ MQTTStateCollision],
     [assign_status IOT_MQTT_BAD_RESPONSE]);
    ([default_],
     [assign_status IOT_MQTT_SUCCESS; break]) ].

(** [IotMqttError_t convertReturnCode( MQTTStatus_t mqttStatus )] *)
Definition convertReturnCode (mqttStatus : MQTTStatus_t) : IotMqttError_t :=
  let status := IOT_MQTT_SUCCESS in
  Switch.run mqttStatus convertReturnCode_switch status.

(** The table of section 4.2 of the specification, as it is written
    there. *)
Definition translate_table (s : MQTTStatus_t) : IotMqttError_t :=
  match s with
  | MQTTSuccess => IOT_MQTT_SUCCESS
  | MQTTBadParameter => IOT_MQTT_BAD_PARAMETER
  | MQTTNoMemory => IOT_MQTT_NO_MEMORY
  | MQTTSendFailed | MQTTRecvFailed => IOT_MQTT_NETWORK_ERROR
  | MQTTBadResponse => IOT_MQTT_BAD_RESPONSE
  | MQTTServerRefused => IOT_MQTT_SERVER_REFUSED
  | MQTTNoDataAvailable | MQTTKeepAliveTimeout => IOT_MQTT_TIMEOUT
  | MQTTIllegalState | MQTTStateCollision => IOT_MQTT_BAD_RESPONSE
  | MQTTUnrecognized _ => IOT_MQTT_SUCCESS
  end.

(** ** Packet descriptors

    Each structure carries the fields this file reads or writes.  Buffers
    of characters and bytes appear as the pointers the file copies; it never
    looks at what they point to.  A pointer argument under
    [IotMqtt_Assert( p != NULL )] is the structure itself. *)

(** [IotMqttPublishInfo_t], the caller's description of a publish. *)
Module IotMqttPublishInfo.
Record t : Type := mk {
    qos : Z;
    retain : bool;
    pTopicName : pointer;
    topicNameLength : Z;
    pPayload : pointer;
    payloadLength : size_t
  }.
End IotMqttPublishInfo.
Definition IotMqttPublishInfo_t : Type := IotMqttPublishInfo.t.

Definition IOT_MQTT_QOS_1 : Z := 1.

(** [IotMqttConnectInfo_t]; [pWillInfo] is [None] for a null pointer. *)
Module IotMqttConnectInfo.
Record t : Type := mk {
    cleanSession : bool;
    keepAliveSeconds : Z;
    pClientIdentifier : pointer;
    clientIdentifierLength : Z;
    pUserName : pointer;
    userNameLength : Z;
    pPassword : pointer;
    passwordLength : Z;
    pWillInfo : option IotMqttPublishInfo_t
  }.
End IotMqttConnectInfo.
Definition IotMqttConnectInfo_t : Type := IotMqttConnectInfo.t.

(** [IotMqttSubscription_t] *)
Module IotMqttSubscription.
Record t : Type := mk {
    qos : Z;
    pTopicFilter : pointer;
    topicFilterLength : Z
  }.
End IotMqttSubscription.
Definition IotMqttSubscription_t : Type := IotMqttSubscription.t.

(** [MQTTPublishInfo_t], the wire-format library's publish descriptor.
    [dup] is [None] while the field has not been assigned: the will
    descriptor of [_connectSerializeWrapper] never assigns it. *)
Module MQTTPublishInfo.
Record t : Type := mk {
    qos : Z;
    retain : bool;
    dup : option bool;
    pTopicName : pointer;
    topicNameLength : Z;
    pPayload : pointer;
    payloadLength : size_t
  }.
End MQTTPublishInfo.
Definition MQTTPublishInfo_t : Type := MQTTPublishInfo.t.

(** [MQTTConnectInfo_t] *)
Module MQTTConnectInfo.
Record t : Type := mk {
    cleanSession : bool;
    keepAliveSeconds : Z;
    pClientIdentifier : pointer;
    clientIdentifierLength : Z;
    pUserName : pointer;
    userNameLength : Z;
    pPassword : pointer;
    passwordLength : Z
  }.
End MQTTConnectInfo.
Definition MQTTConnectInfo_t : Type := MQTTConnectInfo.t.

(** [MQTTSubscribeInfo_t] *)
Module MQTTSubscribeInfo.
Record t : Type := mk {
    qos : Z;
    pTopicFilter : pointer;
    topicFilterLength : Z
  }.
End MQTTSubscribeInfo.
Definition MQTTSubscribeInfo_t : Type := MQTTSubscribeInfo.t.

(** [MQTTFixedBuffer_t] *)
Module MQTTFixedBuffer.
Record t : Type := mk {
    pBuffer : pointer;
    size : size_t
  }.
End MQTTFixedBuffer.
Definition MQTTFixedBuffer_t : Type := MQTTFixedBuffer.t.

(** [MQTTPacketInfo_t] *)
Module MQTTPacketInfo.
Record t : Type := mk {
    type : Z;
    pRemainingData : pointer;
    remainingLength : size_t
  }.
End MQTTPacketInfo.
Definition MQTTPacketInfo_t : Type := MQTTPacketInfo.t.

(** [_mqttPacket_t], a received packet.  [publishInfo] is the cell
    [u.pIncomingPublish->u.publish.publishInfo] that
    [_deserializePublishWrapper] writes through the packet. *)
Module mqttPacket.
Record t : Type := mk {
    type : Z;
    pRemainingData : pointer;
    remainingLength : size_t;
    packetIdentifier : Z;
    publishInfo : IotMqttPublishInfo_t
  }.
End mqttPacket.
Definition _mqttPacket_t : Type := mqttPacket.t.

(** [#define MQTT_PACKET_PUBACK_SIZE ( 4 )] *)
Definition MQTT_PACKET_PUBACK_SIZE : size_t := 4.

(** ** The collaborators

    A function of the library that writes through a pointer takes the value
    the cell holds before the call and returns the value it holds after it,
    next to the status.  The array [MQTT_GetSubscribePacketSize] and its
    siblings read appears as its address and its elements. *)
Class Collaborators : Type := {
  (** [MQTT_PACKET_TYPE_PUBACK], a constant of the library's header. *)
  MQTT_PACKET_TYPE_PUBACK : Z;
  (** [sizeof( MQTTSubscribeInfo_t )] and [SIZE_MAX] of the platform. *)
  sizeof_MQTTSubscribeInfo_t : size_t;
  SIZE_MAX : size_t;
  (** What the allocator answers to a request, given the blocks that are
      allocated: an address, or [NULL]. *)
  malloc_answer : list (pointer * size_t) -> size_t -> pointer;

  MQTT_GetConnectPacketSize :
    MQTTConnectInfo_t -> option MQTTPublishInfo_t ->
    size_t -> size_t -> MQTTStatus_t * size_t * size_t;
  MQTT_SerializeConnect :
    MQTTConnectInfo_t -> option MQTTPublishInfo_t ->
    size_t -> MQTTFixedBuffer_t -> MQTTStatus_t;
  MQTT_GetDisconnectPacketSize : size_t -> MQTTStatus_t * size_t;
  MQTT_SerializeDisconnect : MQTTFixedBuffer_t -> MQTTStatus_t;
  MQTT_GetSubscribePacketSize :
    pointer -> list MQTTSubscribeInfo_t -> size_t ->
    size_t -> size_t -> MQTTStatus_t * size_t * size_t;
  MQTT_SerializeSubscribe :
    pointer -> list MQTTSubscribeInfo_t -> size_t ->
    Z -> size_t -> MQTTFixedBuffer_t -> MQTTStatus_t;
  MQTT_GetUnsubscribePacketSize :
    pointer -> list MQTTSubscribeInfo_t -> size_t ->
    size_t -> size_t -> MQTTStatus_t * size_t * size_t;
  MQTT_SerializeUnsubscribe :
    pointer -> list MQTTSubscribeInfo_t -> size_t ->
    Z -> size_t -> MQTTFixedBuffer_t -> MQTTStatus_t;
  MQTT_GetPublishPacketSize :
    MQTTPublishInfo_t -> size_t -> size_t -> MQTTStatus_t * size_t * size_t;
  MQTT_SerializePublish :
    MQTTPublishInfo_t -> Z -> size_t -> MQTTFixedBuffer_t -> MQTTStatus_t;
  MQTT_GetPingreqPacketSize : size_t -> MQTTStatus_t * size_t;
  MQTT_SerializePingreq : MQTTFixedBuffer_t -> MQTTStatus_t;
  MQTT_SerializeAck : MQTTFixedBuffer_t -> Z -> Z -> MQTTStatus_t;
  (** The third argument is the [bool * pSessionPresent] cell, [None] for
      [NULL]; what the decoder stores there is dropped by every caller. *)
  MQTT_DeserializeAck :
    MQTTPacketInfo_t -> Z -> option bool -> MQTTStatus_t * Z;
  (** The decoder fills a local [MQTTPublishInfo_t] of the caller that holds
      nothing before the call. *)
  MQTT_DeserializePublish :
    MQTTPacketInfo_t -> Z -> MQTTStatus_t * Z * MQTTPublishInfo_t
}.

(** ** The state of the process and the calls a wrapper makes *)

(** The static counter of [_nextPacketIdentifier] and the blocks obtained
    from [IotMqtt_MallocMessage] that have not been given back. *)
Record world : Type := mkWorld {
  nextPacketIdentifier : Z;
  heap : list (pointer * size_t)
}.

(** [static uint32_t nextPacketIdentifier = 1;], nothing allocated. *)
Definition initial_world : world :=
  {| nextPacketIdentifier := 1; heap := [] |}.

(** One call out of the file, with its arguments and what it answered. *)
Inductive call : Type :=
| IotMqtt_MallocMessage_call (size : size_t) (ret : pointer)
| IotMqtt_FreeMessage_call (p : pointer)
| Atomic_Add_u32_call (addend : Z) (ret : Z)
| MQTT_GetConnectPacketSize_call
    (info : MQTTConnectInfo_t) (will : option MQTTPublishInfo_t)
    (ret : MQTTStatus_t * size_t * size_t)
| MQTT_SerializeConnect_call
    (info : MQTTConnectInfo_t) (will : option MQTTPublishInfo_t)
    (remainingLength : size_t) (buffer : MQTTFixedBuffer_t)
    (ret : MQTTStatus_t)
| MQTT_GetDisconnectPacketSize_call (ret : MQTTStatus_t * size_t)
| MQTT_SerializeDisconnect_call (buffer : MQTTFixedBuffer_t)
    (ret : MQTTStatus_t)
| MQTT_GetSubscribePacketSize_call
    (list_ : pointer) (elements : list MQTTSubscribeInfo_t) (count : size_t)
    (ret : MQTTStatus_t * size_t * size_t)
| MQTT_SerializeSubscribe_call
    (list_ : pointer) (elements : list MQTTSubscribeInfo_t) (count : size_t)
    (packetId : Z) (remainingLength : size_t) (buffer : MQTTFixedBuffer_t)
    (ret : MQTTStatus_t)
| MQTT_GetUnsubscribePacketSize_call
    (list_ : pointer) (elements : list MQTTSubscribeInfo_t) (count : size_t)
    (ret : MQTTStatus_t * size_t * size_t)
| MQTT_SerializeUnsubscribe_call
    (list_ : pointer) (elements : list MQTTSubscribeInfo_t) (count : size_t)
    (packetId : Z) (remainingLength : size_t) (buffer : MQTTFixedBuffer_t)
    (ret : MQTTStatus_t)
| MQTT_GetPublishPacketSize_call
    (info : MQTTPublishInfo_t) (ret : MQTTStatus_t * size_t * size_t)
| MQTT_SerializePublish_call
    (info : MQTTPublishInfo_t) (packetId : Z) (remainingLength : size_t)
    (buffer : MQTTFixedBuffer_t) (ret : MQTTStatus_t)
| MQTT_GetPingreqPacketSize_call (ret : MQTTStatus_t * size_t)
| MQTT_SerializePingreq_call (buffer : MQTTFixedBuffer_t)
    (ret : MQTTStatus_t)
| MQTT_SerializeAck_call
    (buffer : MQTTFixedBuffer_t) (packetType : Z) (packetId : Z)
    (ret : MQTTStatus_t).

(** How a wrapper ends: it returns a value in a new state after a sequence
    of calls, or it writes through a null pointer. *)
Inductive outcome (A : Type) : Type :=
| Fault
| Done (a : A) (w : world) (calls : list call).
Arguments Fault {A}.
Arguments Done {A} a w calls.

Definition M (A : Type) : Type := world -> outcome A.

Definition ret {A : Type} (a : A) : M A := fun w => Done a w [].

Definition bind {A B : Type} (m : M A) (f : A -> M B) : M B :=
  fun w =>
    match m w with
    | Fault => Fault
    | Done a w1 t1 =>
        match f a w1 with
        | Fault => Fault
        | Done b w2 t2 => Done b w2 (t1 ++ t2)
        end
    end.

Definition fault {A : Type} : M A := fun _ => Fault.

(** A call of a function of the wire-format library: it answers and is
    recorded; the state of this file is not its business. *)
Definition lib {A : Type} (answer : A) (record : A -> call) : M A :=
  fun w => Done answer w [record answer].

Declare Scope wrapper_scope.
Delimit Scope wrapper_scope with wrapper.
Notation "x <- m ;; k" := (bind m (fun x => k))
  (at level 61, m at next level, right associativity) : wrapper_scope.
Notation "' pat <- m ;; k" :=
  (bind m (fun x => match x with pat => k end))
  (at level 61, pat pattern, m at next level, right associativity)
  : wrapper_scope.
Open Scope wrapper_scope.

Section Wrappers.

Context {C : Collaborators}.

(** ** The allocator and the identifier generator *)

(** Modelled from the spec: [IotMqtt_MallocMessage], the memory
    collaborator [allocate(size) -> buffer_or_null], a macro of the
    configuration header.  A block it returns stays in [heap] until it is
    given back. *)
Definition IotMqtt_MallocMessage (size : size_t) : M pointer :=
  fun w =>
    let p := malloc_answer (heap w) size in
    Done p
         {| nextPacketIdentifier := nextPacketIdentifier w;
            heap := if p =? NULL then heap w else (p, size) :: heap w |}
         [IotMqtt_MallocMessage_call size p].

(** Modelled from the spec: [IotMqtt_FreeMessage], the operation by which
    a block is released to the memory collaborator.  It is here for what
    the specification says about releasing; no function of the file calls
    it. *)
Definition IotMqtt_FreeMessage (p : pointer) : M unit :=
  fun w =>
    Done tt
         {| nextPacketIdentifier := nextPacketIdentifier w;
            heap := filter (fun block => negb (fst block =? p)) (heap w) |}
         [IotMqtt_FreeMessage_call p].

(** Modelled from the spec: [Atomic_Add_u32] of [iot_atomic.h], an atomic
    fetch-and-add on a 32-bit counter: it adds to the cell, modulo [2 ^ 32],
    and returns the value the cell held before.  The only cell the file
    applies it to is the static [nextPacketIdentifier]. *)
Definition Atomic_Add_u32 (value : Z) : M Z :=
  fun w =>
    let previous := nextPacketIdentifier w in
    Done previous
         {| nextPacketIdentifier := uint32 (previous + value);
            heap := heap w |}
         [Atomic_Add_u32_call value previous].

(** [static uint16_t _nextPacketIdentifier( void )] *)
Definition _nextPacketIdentifier : M Z :=
  previous <- Atomic_Add_u32 2 ;;
  ret (uint16 previous).

(** [n] calls of the generator one after the other: what they returned, in
    order. *)
Fixpoint identifiers (n : nat) : M (list Z) :=
  match n with
  | O => ret []
  | S n' =>
      id <- _nextPacketIdentifier ;;
      rest <- identifiers n' ;;
      ret (id :: rest)
  end.

(** The value returned by call number [k], counted from 0, when the
    generator starts from the initial state of the process. *)
Definition identifier_of_call (k : nat) : option Z :=
  match identifiers (S k) initial_world with
  | Done ids _ _ => nth_error ids k
  | Fault => None
  end.

(** ** The serializer wrappers

    An output parameter ([uint8_t ** pConnectPacket], [size_t * pPacketSize],
    [uint16_t * pPacketIdentifier]) is the value the caller's cell holds at
    the call; the wrapper returns, next to its status, the value each cell
    holds at the return. *)

(** A [MQTTFixedBuffer_t networkBuffer] that has not been assigned.  The
    paths that leave it so never read it. *)
Definition unset_buffer : MQTTFixedBuffer_t :=
  {| MQTTFixedBuffer.pBuffer := NULL; MQTTFixedBuffer.size := 0 |}.

(** [IotMqttError_t _connectSerializeWrapper( const IotMqttConnectInfo_t *
    pConnectInfo, uint8_t ** pConnectPacket, size_t * pPacketSize )] *)
Definition _connectSerializeWrapper
           (pConnectInfo : IotMqttConnectInfo_t)
           (pConnectPacket : pointer) (pPacketSize : size_t)
  : M (IotMqttError_t * pointer * size_t) :=
  let remainingLength := 0 in
  let connectInfo :=
    {| MQTTConnectInfo.cleanSession :=
         IotMqttConnectInfo.cleanSession pConnectInfo;
       MQTTConnectInfo.keepAliveSeconds :=
         IotMqttConnectInfo.keepAliveSeconds pConnectInfo;
       MQTTConnectInfo.pClientIdentifier :=
         IotMqttConnectInfo.pClientIdentifier pConnectInfo;
       MQTTConnectInfo.clientIdentifierLength :=
         IotMqttConnectInfo.clientIdentifierLength pConnectInfo;
       MQTTConnectInfo.pUserName :=
         IotMqttConnectInfo.pUserName pConnectInfo;
       MQTTConnectInfo.userNameLength :=
         IotMqttConnectInfo.userNameLength pConnectInfo;
       MQTTConnectInfo.pPassword :=
         IotMqttConnectInfo.pPassword pConnectInfo;
       MQTTConnectInfo.passwordLength :=
         IotMqttConnectInfo.passwordLength pConnectInfo |} in
  let pWillInfo :=
    match IotMqttConnectInfo.pWillInfo pConnectInfo with
    | Some will =>
        Some {| MQTTPublishInfo.retain := IotMqttPublishInfo.retain will;
                MQTTPublishInfo.pTopicName :=
                  IotMqttPublishInfo.pTopicName will;
                MQTTPublishInfo.topicNameLength :=
                  IotMqttPublishInfo.topicNameLength will;
                MQTTPublishInfo.pPayload := IotMqttPublishInfo.pPayload will;
                MQTTPublishInfo.payloadLength :=
                  IotMqttPublishInfo.payloadLength will;
                MQTTPublishInfo.qos := IotMqttPublishInfo.qos will;
                MQTTPublishInfo.dup := None |}
    | None => None
    end in
  '(mqttStatus, remainingLength, pPacketSize) <-
    lib (MQTT_GetConnectPacketSize connectInfo pWillInfo
                                   remainingLength pPacketSize)
        (MQTT_GetConnectPacketSize_call connectInfo pWillInfo) ;;
  let status := convertReturnCode mqttStatus in
  '(status, networkBuffer) <-
    (if IotMqttError_eqb status IOT_MQTT_SUCCESS then
       pBuffer <- IotMqtt_MallocMessage pPacketSize ;;
       let networkBuffer :=
         {| MQTTFixedBuffer.pBuffer := pBuffer;
            MQTTFixedBuffer.size := pPacketSize |} in
       mqttStatus <-
         lib (MQTT_SerializeConnect connectInfo pWillInfo
                                    remainingLength networkBuffer)
             (MQTT_SerializeConnect_call connectInfo pWillInfo
                                         remainingLength networkBuffer) ;;
       ret (convertReturnCode mqttStatus, networkBuffer)
     else ret (status, unset_buffer)) ;;
  let pConnectPacket :=
    if IotMqttError_eqb status IOT_MQTT_SUCCESS
    then MQTTFixedBuffer.pBuffer networkBuffer
    else pConnectPacket in
  ret (status, pConnectPacket, pPacketSize).

(** [IotMqttError_t _disconnectSerializeWrapper( uint8_t **
    pDisconnectPacket, size_t * pPacketSize )] *)
Definition _disconnectSerializeWrapper
           (pDisconnectPacket : pointer) (pPacketSize : size_t)
  : M (IotMqttError_t * pointer * size_t) :=
  '(mqttStatus, pPacketSize) <-
    lib (MQTT_GetDisconnectPacketSize pPacketSize)
        MQTT_GetDisconnectPacketSize_call ;;
  let status := convertReturnCode mqttStatus in
  '(status, networkBuffer) <-
    (if IotMqttError_eqb status IOT_MQTT_SUCCESS then
       pBuffer <- IotMqtt_MallocMessage pPacketSize ;;
       let networkBuffer :=
         {| MQTTFixedBuffer.pBuffer := pBuffer;
            MQTTFixedBuffer.size := pPacketSize |} in
       mqttStatus <-
         lib (MQTT_SerializeDisconnect networkBuffer)
             (MQTT_SerializeDisconnect_call networkBuffer) ;;
       ret (convertReturnCode mqttStatus, networkBuffer)
     else ret (status, unset_buffer)) ;;
  let pDisconnectPacket :=
    if IotMqttError_eqb status IOT_MQTT_SUCCESS
    then MQTTFixedBuffer.pBuffer networkBuffer
    else pDisconnectPacket in
  ret (status, pDisconnectPacket, pPacketSize).

(** The loop that fills [subscriptionList], shared word for word by
    [_subscribeSerializeWrapper] and [_unsubscribeSerializeWrapper]: one
    store through [subscriptionList] for every element of the caller's
    array, which writes through a null pointer when the allocation before
    it failed. *)
Fixpoint fill_subscriptionList
         (subscriptionList : pointer)
         (pSubscriptionList : list IotMqttSubscription_t)
  : M (list MQTTSubscribeInfo_t) :=
  match pSubscriptionList with
  | [] => ret []
  | s :: rest =>
      if subscriptionList =? NULL then fault
      else
        let element :=
          {| MQTTSubscribeInfo.qos := IotMqttSubscription.qos s;
             MQTTSubscribeInfo.pTopicFilter :=
               IotMqttSubscription.pTopicFilter s;
             MQTTSubscribeInfo.topicFilterLength :=
               IotMqttSubscription.topicFilterLength s |} in
        elements <- fill_subscriptionList subscriptionList rest ;;
        ret (element :: elements)
  end.

(** [IotMqttError_t _subscribeSerializeWrapper( const IotMqttSubscription_t *
    pSubscriptionList, size_t subscriptionCount, uint8_t ** pSubscribePacket,
    size_t * pPacketSize, uint16_t * pPacketIdentifier )].  The array
    [pSubscriptionList] of [subscriptionCount] elements is the list of its
    elements. *)
Definition _subscribeSerializeWrapper
           (pSubscriptionList : list IotMqttSubscription_t)
           (pSubscribePacket : pointer) (pPacketSize : size_t)
           (pPacketIdentifier : Z)
  : M (IotMqttError_t * pointer * size_t * Z) :=
  let subscriptionCount := Z.of_nat (length pSubscriptionList) in
  let remainingLength := 0 in
  subscriptionList <-
    IotMqtt_MallocMessage
      ((sizeof_MQTTSubscribeInfo_t * subscriptionCount) mod (SIZE_MAX + 1)) ;;
  let packetId := 0 in
  elements <- fill_subscriptionList subscriptionList pSubscriptionList ;;
  '(mqttStatus, remainingLength, pPacketSize) <-
    lib (MQTT_GetSubscribePacketSize subscriptionList elements
                                     subscriptionCount
                                     remainingLength pPacketSize)
        (MQTT_GetSubscribePacketSize_call subscriptionList elements
                                          subscriptionCount) ;;
  let status := convertReturnCode mqttStatus in
  '(status, packetId, networkBuffer) <-
    (if IotMqttError_eqb status IOT_MQTT_SUCCESS then
       packetId <- _nextPacketIdentifier ;;
       pBuffer <- IotMqtt_MallocMessage pPacketSize ;;
       let networkBuffer :=
         {| MQTTFixedBuffer.pBuffer := pBuffer;
            MQTTFixedBuffer.size := pPacketSize |} in
       mqttStatus <-
         lib (MQTT_SerializeSubscribe subscriptionList elements
                                      subscriptionCount packetId
                                      remainingLength networkBuffer)
             (MQTT_SerializeSubscribe_call subscriptionList elements
                                           subscriptionCount packetId
                                           remainingLength networkBuffer) ;;
       ret (convertReturnCode mqttStatus, packetId, networkBuffer)
     else ret (status, packetId, unset_buffer)) ;;
  let '(pSubscribePacket, pPacketIdentifier) :=
    if IotMqttError_eqb status IOT_MQTT_SUCCESS
    then (MQTTFixedBuffer.pBuffer networkBuffer, packetId)
    else (pSubscribePacket, pPacketIdentifier) in
  ret (status, pSubscribePacket, pPacketSize, pPacketIdentifier).

(** [IotMqttError_t _unsubscribeSerializeWrapper( const
    IotMqttSubscription_t * pSubscriptionList, size_t subscriptionCount,
    uint8_t ** pUnsubscribePacket, size_t * pPacketSize, uint16_t *
    pPacketIdentifier )] *)
Definition _unsubscribeSerializeWrapper
           (pSubscriptionList : list IotMqttSubscription_t)
           (pUnsubscribePacket : pointer) (pPacketSize : size_t)
           (pPacketIdentifier : Z)
  : M (IotMqttError_t * pointer * size_t * Z) :=
  let subscriptionCount := Z.of_nat (length pSubscriptionList) in
  let remainingLength := 0 in
  subscriptionList <-
    IotMqtt_MallocMessage
      ((sizeof_MQTTSubscribeInfo_t * subscriptionCount) mod (SIZE_MAX + 1)) ;;
  let packetId := 0 in
  elements <- fill_subscriptionList subscriptionList pSubscriptionList ;;
  '(mqttStatus, remainingLength, pPacketSize) <-
    lib (MQTT_GetUnsubscribePacketSize subscriptionList elements
                                       subscriptionCount
                                       remainingLength pPacketSize)
        (MQTT_GetUnsubscribePacketSize_call subscriptionList elements
                                            subscriptionCount) ;;
  let status := convertReturnCode mqttStatus in
  '(status, packetId, networkBuffer) <-
    (if IotMqttError_eqb status IOT_MQTT_SUCCESS then
       packetId <- _nextPacketIdentifier ;;
       pBuffer <- IotMqtt_MallocMessage pPacketSize ;;
       let networkBuffer :=
         {| MQTTFixedBuffer.pBuffer := pBuffer;
            MQTTFixedBuffer.size := pPacketSize |} in
       mqttStatus <-
         lib (MQTT_SerializeUnsubscribe subscriptionList elements
                                        subscriptionCount packetId
                                        remainingLength networkBuffer)
             (MQTT_SerializeUnsubscribe_call subscriptionList elements
                                             subscriptionCount packetId
                                             remainingLength networkBuffer) ;;
       ret (convertReturnCode mqttStatus, packetId, networkBuffer)
     else ret (status, packetId, unset_buffer)) ;;
  let '(pUnsubscribePacket, pPacketIdentifier) :=
    if IotMqttError_eqb status IOT_MQTT_SUCCESS
    then (MQTTFixedBuffer.pBuffer networkBuffer, packetId)
    else (pUnsubscribePacket, pPacketIdentifier) in
  ret (status, pUnsubscribePacket, pPacketSize, pPacketIdentifier).

(** [IotMqttError_t _publishSerializeWrapper( const IotMqttPublishInfo_t *
    pPublishInfo, uint8_t ** pPublishPacket, size_t * pPacketSize, uint16_t *
    pPacketIdentifier, uint8_t ** pPacketIdentifierHigh )].  The last
    parameter is never used. *)
Definition _publishSerializeWrapper
           (pPublishInfo : IotMqttPublishInfo_t)
           (pPublishPacket : pointer) (pPacketSize : size_t)
           (pPacketIdentifier : Z) (pPacketIdentifierHigh : pointer)
  : M (IotMqttError_t * pointer * size_t * Z) :=
  let remainingLength := 0 in
  let packetId := 0 in
  let publishInfo :=
    {| MQTTPublishInfo.retain := IotMqttPublishInfo.retain pPublishInfo;
       MQTTPublishInfo.pTopicName :=
         IotMqttPublishInfo.pTopicName pPublishInfo;
       MQTTPublishInfo.topicNameLength :=
         IotMqttPublishInfo.topicNameLength pPublishInfo;
       MQTTPublishInfo.pPayload := IotMqttPublishInfo.pPayload pPublishInfo;
       MQTTPublishInfo.payloadLength :=
         IotMqttPublishInfo.payloadLength pPublishInfo;
       MQTTPublishInfo.qos := IotMqttPublishInfo.qos pPublishInfo;
       MQTTPublishInfo.dup :=
         if IotMqttPublishInfo.qos pPublishInfo =? IOT_MQTT_QOS_1
         then Some true
         else Some false |} in
  '(mqttStatus, remainingLength, pPacketSize) <-
    lib (MQTT_GetPublishPacketSize publishInfo remainingLength pPacketSize)
        (MQTT_GetPublishPacketSize_call publishInfo) ;;
  let status := convertReturnCode mqttStatus in
  '(status, packetId, networkBuffer) <-
    (if IotMqttError_eqb status IOT_MQTT_SUCCESS then
       packetId <- _nextPacketIdentifier ;;
       pBuffer <- IotMqtt_MallocMessage pPacketSize ;;
       let networkBuffer :=
         {| MQTTFixedBuffer.pBuffer := pBuffer;
            MQTTFixedBuffer.size := pPacketSize |} in
       mqttStatus <-
         lib (MQTT_SerializePublish publishInfo packetId
                                    remainingLength networkBuffer)
             (MQTT_SerializePublish_call publishInfo packetId
                                         remainingLength networkBuffer) ;;
       ret (convertReturnCode mqttStatus, packetId, networkBuffer)
     else ret (status, packetId, unset_buffer)) ;;
  let '(pPublishPacket, pPacketIdentifier) :=
    if IotMqttError_eqb status IOT_MQTT_SUCCESS
    then (MQTTFixedBuffer.pBuffer networkBuffer, packetId)
    else (pPublishPacket, pPacketIdentifier) in
  ret (status, pPublishPacket, pPacketSize, pPacketIdentifier).

(** [IotMqttError_t _pingreqSerializeWrapper( uint8_t ** pPingreqPacket,
    size_t * pPacketSize )] *)
Definition _pingreqSerializeWrapper
           (pPingreqPacket : pointer) (pPacketSize : size_t)
  : M (IotMqttError_t * pointer * size_t) :=
  '(mqttStatus, pPacketSize) <-
    lib (MQTT_GetPingreqPacketSize pPacketSize)
        MQTT_GetPingreqPacketSize_call ;;
  let serializeStatus := convertReturnCode mqttStatus in
  '(serializeStatus, networkBuffer) <-
    (if IotMqttError_eqb serializeStatus IOT_MQTT_SUCCESS then
       pBuffer <- IotMqtt_MallocMessage pPacketSize ;;
       let networkBuffer :=
         {| MQTTFixedBuffer.pBuffer := pBuffer;
            MQTTFixedBuffer.size := pPacketSize |} in
       mqttStatus <-
         lib (MQTT_SerializePingreq networkBuffer)
             (MQTT_SerializePingreq_call networkBuffer) ;;
       ret (convertReturnCode mqttStatus, networkBuffer)
     else ret (serializeStatus, unset_buffer)) ;;
  let pPingreqPacket :=
    if IotMqttError_eqb serializeStatus IOT_MQTT_SUCCESS
    then MQTTFixedBuffer.pBuffer networkBuffer
    else pPingreqPacket in
  ret (serializeStatus, pPingreqPacket, pPacketSize).

(** [IotMqttError_t _pubackSerializeWrapper( uint16_t packetIdentifier,
    uint8_t ** pPubackPacket, size_t * pPacketSize )].  The file stores the
    result of [MQTT_SerializeAck] in [status] and, in the next statement,
    stores [convertReturnCode( mqttStatus )] there, [mqttStatus] being the
    local that was initialised to [MQTTSuccess] and never assigned. *)
Definition _pubackSerializeWrapper
           (packetIdentifier : Z)
           (pPubackPacket : pointer) (pPacketSize : size_t)
  : M (IotMqttError_t * pointer * size_t) :=
  let mqttStatus := MQTTSuccess in
  let packetTypeByte := MQTT_PACKET_TYPE_PUBACK in
  pBuffer <- IotMqtt_MallocMessage MQTT_PACKET_PUBACK_SIZE ;;
  let networkBuffer :=
    {| MQTTFixedBuffer.pBuffer := pBuffer;
       MQTTFixedBuffer.size := MQTT_PACKET_PUBACK_SIZE |} in
  let pPacketSize := MQTT_PACKET_PUBACK_SIZE in
  overwritten <-
    lib (MQTT_SerializeAck networkBuffer packetTypeByte packetIdentifier)
        (MQTT_SerializeAck_call networkBuffer packetTypeByte
                                packetIdentifier) ;;
  let status := convertReturnCode mqttStatus in
  let pPubackPacket :=
    if IotMqttError_eqb status IOT_MQTT_SUCCESS
    then MQTTFixedBuffer.pBuffer networkBuffer
    else pPubackPacket in
  ret (status, pPubackPacket, pPacketSize).

(** ** The deserializer wrappers

    A wrapper takes the packet as the caller holds it and returns the
    status with the packet as it is at the return.  It allocates nothing and
    does not touch the identifier counter. *)

Definition incoming (pPacket : _mqttPacket_t) : MQTTPacketInfo_t :=
  {| MQTTPacketInfo.type := mqttPacket.type pPacket;
     MQTTPacketInfo.pRemainingData := mqttPacket.pRemainingData pPacket;
     MQTTPacketInfo.remainingLength := mqttPacket.remainingLength pPacket |}.

(** The packet after a store to [pPacket->packetIdentifier]. *)
Definition with_packetIdentifier (pPacket : _mqttPacket_t) (id : Z)
  : _mqttPacket_t :=
  {| mqttPacket.type := mqttPacket.type pPacket;
     mqttPacket.pRemainingData := mqttPacket.pRemainingData pPacket;
     mqttPacket.remainingLength := mqttPacket.remainingLength pPacket;
     mqttPacket.packetIdentifier := id;
     mqttPacket.publishInfo := mqttPacket.publishInfo pPacket |}.

(** The packet after a store to the publish cell it points to. *)
Definition with_publishInfo (pPacket : _mqttPacket_t)
           (info : IotMqttPublishInfo_t) : _mqttPacket_t :=
  {| mqttPacket.type := mqttPacket.type pPacket;
     mqttPacket.pRemainingData := mqttPacket.pRemainingData pPacket;
     mqttPacket.remainingLength := mqttPacket.remainingLength pPacket;
     mqttPacket.packetIdentifier := mqttPacket.packetIdentifier pPacket;
     mqttPacket.publishInfo := info |}.

(** [IotMqttError_t _deserializeConnackWrapper( _mqttPacket_t * pConnack )] *)
Definition _deserializeConnackWrapper (pConnack : _mqttPacket_t)
  : IotMqttError_t * _mqttPacket_t :=
  let sessionPresent := false in
  let pIncomingPacket := incoming pConnack in
  let '(mqttStatus, packetIdentifier) :=
    MQTT_DeserializeAck pIncomingPacket
                        (mqttPacket.packetIdentifier pConnack)
                        (Some sessionPresent) in
  let status := convertReturnCode mqttStatus in
  (status, with_packetIdentifier pConnack packetIdentifier).

(** [IotMqttError_t _deserializeSubackWrapper( _mqttPacket_t * pSuback )] *)
Definition _deserializeSubackWrapper (pSuback : _mqttPacket_t)
  : IotMqttError_t * _mqttPacket_t :=
  let pIncomingPacket := incoming pSuback in
  let '(mqttStatus, packetIdentifier) :=
    MQTT_DeserializeAck pIncomingPacket
                        (mqttPacket.packetIdentifier pSuback) None in
  let status := convertReturnCode mqttStatus in
  (status, with_packetIdentifier pSuback packetIdentifier).

(** [IotMqttError_t _deserializeUnsubackWrapper( _mqttPacket_t *
    pUnsuback )] *)
Definition _deserializeUnsubackWrapper (pUnsuback : _mqttPacket_t)
  : IotMqttError_t * _mqttPacket_t :=
  let pIncomingPacket := incoming pUnsuback in
  let '(mqttStatus, packetIdentifier) :=
    MQTT_DeserializeAck pIncomingPacket
                        (mqttPacket.packetIdentifier pUnsuback) None in
  let status := convertReturnCode mqttStatus in
  (status, with_packetIdentifier pUnsuback packetIdentifier).

(** [IotMqttError_t _deserializePubackWrapper( _mqttPacket_t * pPuback )] *)
Definition _deserializePubackWrapper (pPuback : _mqttPacket_t)
  : IotMqttError_t * _mqttPacket_t :=
  let pIncomingPacket := incoming pPuback in
  let '(mqttStatus, packetIdentifier) :=
    MQTT_DeserializeAck pIncomingPacket
                        (mqttPacket.packetIdentifier pPuback) None in
  let status := convertReturnCode mqttStatus in
  (status, with_packetIdentifier pPuback packetIdentifier).

(** [IotMqttError_t _deserializePingrespWrapper( _mqttPacket_t *
    pPingresp )] *)
Definition _deserializePingrespWrapper (pPingresp : _mqttPacket_t)
  : IotMqttError_t * _mqttPacket_t :=
  let pIncomingPacket := incoming pPingresp in
  let '(mqttStatus, packetIdentifier) :=
    MQTT_DeserializeAck pIncomingPacket
                        (mqttPacket.packetIdentifier pPingresp) None in
  let status := convertReturnCode mqttStatus in
  (status, with_packetIdentifier pPingresp packetIdentifier).

(** [IotMqttError_t _deserializePublishWrapper( _mqttPacket_t * pPublish )] *)
Definition _deserializePublishWrapper (pPublish : _mqttPacket_t)
  : IotMqttError_t * _mqttPacket_t :=
  let pIncomingPacket := incoming pPublish in
  let '(mqttStatus, packetIdentifier, publishInfo) :=
    MQTT_DeserializePublish pIncomingPacket
                            (mqttPacket.packetIdentifier pPublish) in
  let pPublish := with_packetIdentifier pPublish packetIdentifier in
  let status := convertReturnCode mqttStatus in
  let pPublish :=
    if IotMqttError_eqb status IOT_MQTT_SUCCESS then
      with_publishInfo pPublish
        {| IotMqttPublishInfo.qos := MQTTPublishInfo.qos publishInfo;
           IotMqttPublishInfo.payloadLength :=
             MQTTPublishInfo.payloadLength publishInfo;
           IotMqttPublishInfo.pPayload :=
             MQTTPublishInfo.pPayload publishInfo;
           IotMqttPublishInfo.pTopicName :=
             MQTTPublishInfo.pTopicName publishInfo;
           IotMqttPublishInfo.topicNameLength :=
             MQTTPublishInfo.topicNameLength publishInfo;
           IotMqttPublishInfo.retain := MQTTPublishInfo.retain publishInfo |}
    else pPublish in
  (status, pPublish).

(** ** Every builder, every parser *)

(** The seven serializer wrappers with their inputs. *)
Inductive builder : Type :=
| Connect (pConnectInfo : IotMqttConnectInfo_t)
| Disconnect
| Subscribe (pSubscriptionList : list IotMqttSubscription_t)
| Unsubscribe (pSubscriptionList : list IotMqttSubscription_t)
| Publish (pPublishInfo : IotMqttPublishInfo_t)
| Pingreq
| Puback (packetIdentifier : Z).

(** The cells of the caller that the output parameters point to.  A
    builder without a [pPacketIdentifier] parameter has no way to reach
    [identifier]. *)
Record slots : Type := mkSlots {
  packet : pointer;
  packetSize : size_t;
  identifier : Z
}.

Definition build (b : builder) (s : slots) : M (IotMqttError_t * slots) :=
  match b with
  | Connect pConnectInfo =>
      '(status, p, n) <-
        _connectSerializeWrapper pConnectInfo (packet s) (packetSize s) ;;
      ret (status, mkSlots p n (identifier s))
  | Disconnect =>
      '(status, p, n) <-
        _disconnectSerializeWrapper (packet s) (packetSize s) ;;
      ret (status, mkSlots p n (identifier s))
  | Subscribe pSubscriptionList =>
      '(status, p, n, id) <-
        _subscribeSerializeWrapper pSubscriptionList
                                   (packet s) (packetSize s) (identifier s) ;;
      ret (status, mkSlots p n id)
  | Unsubscribe pSubscriptionList =>
      '(status, p, n, id) <-
        _unsubscribeSerializeWrapper pSubscriptionList
                                     (packet s) (packetSize s)
                                     (identifier s) ;;
      ret (status, mkSlots p n id)
  | Publish pPublishInfo =>
      '(status, p, n, id) <-
        _publishSerializeWrapper pPublishInfo
                                 (packet s) (packetSize s) (identifier s)
                                 NULL ;;
      ret (status, mkSlots p n id)
  | Pingreq =>
      '(status, p, n) <-
        _pingreqSerializeWrapper (packet s) (packetSize s) ;;
      ret (status, mkSlots p n (identifier s))
  | Puback packetIdentifier =>
      '(status, p, n) <-
        _pubackSerializeWrapper packetIdentifier (packet s) (packetSize s) ;;
      ret (status, mkSlots p n (identifier s))
  end.

(** The six deserializer wrappers. *)
Inductive parser : Type :=
| Connack | Suback | Unsuback | PubackIn | Pingresp | PublishIn.

Definition parse (p : parser) (pPacket : _mqttPacket_t)
  : IotMqttError_t * _mqttPacket_t :=
  match p with
  | Connack => _deserializeConnackWrapper pPacket
  | Suback => _deserializeSubackWrapper pPacket
  | Unsuback => _deserializeUnsubackWrapper pPacket
  | PubackIn => _deserializePubackWrapper pPacket
  | Pingresp => _deserializePingrespWrapper pPacket
  | PublishIn => _deserializePublishWrapper pPacket
  end.

(** What the decoder a parser calls leaves in
    [pPacket->packetIdentifier], the cell the parser hands it. *)
Definition decoded_identifier (p : parser) (pPacket : _mqttPacket_t) : Z :=
  match p with
  | Connack =>
      snd (MQTT_DeserializeAck (incoming pPacket)
                               (mqttPacket.packetIdentifier pPacket)
                               (Some false))
  | PublishIn =>
      snd (fst (MQTT_DeserializePublish
                  (incoming pPacket)
                  (mqttPacket.packetIdentifier pPacket)))
  | _ =>
      snd (MQTT_DeserializeAck (incoming pPacket)
                               (mqttPacket.packetIdentifier pPacket) None)
  end.

End Wrappers.

(** ** Reading the record of calls *)

(** A size query: the status it returned and the total packet size it left
    in [*pPacketSize]. *)
Definition size_query_answer (c : call) : option (MQTTStatus_t * size_t) :=
  match c with
  | MQTT_GetConnectPacketSize_call _ _ (status, _, size)
  | MQTT_GetSubscribePacketSize_call _ _ _ (status, _, size)
  | MQTT_GetUnsubscribePacketSize_call _ _ _ (status, _, size)
  | MQTT_GetPublishPacketSize_call _ (status, _, size)
  | MQTT_GetDisconnectPacketSize_call (status, size)
  | MQTT_GetPingreqPacketSize_call (status, size) => Some (status, size)
  | _ => None
  end.

(** A serialize call: the buffer it was handed and the status it
    returned. *)
Definition serialize_answer (c : call)
  : option (MQTTFixedBuffer_t * MQTTStatus_t) :=
  match c with
  | MQTT_SerializeConnect_call _ _ _ buffer status
  | MQTT_SerializeDisconnect_call buffer status
  | MQTT_SerializeSubscribe_call _ _ _ _ _ buffer status
  | MQTT_SerializeUnsubscribe_call _ _ _ _ _ buffer status
  | MQTT_SerializePublish_call _ _ _ buffer status
  | MQTT_SerializePingreq_call buffer status
  | MQTT_SerializeAck_call buffer _ _ status => Some (buffer, status)
  | _ => None
  end.

(** The packet identifier a serialize call was given, for the three packet
    types that carry a generated one. *)
Definition serialized_identifier (c : call) : option Z :=
  match c with
  | MQTT_SerializeSubscribe_call _ _ _ packetId _ _ _
  | MQTT_SerializeUnsubscribe_call _ _ _ packetId _ _ _
  | MQTT_SerializePublish_call _ packetId _ _ _ => Some packetId
  | _ => None
  end.

(** The publish descriptor a call of the library was given. *)
Definition publish_descriptor (c : call) : option MQTTPublishInfo_t :=
  match c with
  | MQTT_GetPublishPacketSize_call info _
  | MQTT_SerializePublish_call info _ _ _ _ => Some info
  | _ => None
  end.

(** The blocks obtained by the calls, latest first. *)
Fixpoint allocated (t : list call) : list (pointer * size_t) :=
  match t with
  | [] => []
  | IotMqtt_MallocMessage_call size p :: rest =>
      if p =? NULL then allocated rest
      else allocated rest ++ [(p, size)]
  | _ :: rest => allocated rest
  end.

(** The identifiers drawn from the generator by the calls, in order: each
    draw is one fetch-and-add, and the identifier is its result cut to 16
    bits. *)
Fixpoint drawn (t : list call) : list Z :=
  match t with
  | [] => []
  | Atomic_Add_u32_call _ previous :: rest => uint16 previous :: drawn rest
  | _ :: rest => drawn rest
  end.

(** The calls made after the size query. *)
Fixpoint after_size_query (t : list call) : list call :=
  match t with
  | [] => []
  | c :: rest =>
      match size_query_answer c with
      | Some _ => rest
      | None => after_size_query rest
      end
  end.

(** The builders that draw a packet identifier. *)
Definition consumes_identifier (b : builder) : bool :=
  match b with
  | Subscribe _ | Unsubscribe _ | Publish _ => true
  | _ => false
  end.

(** The builders that ask the library for the packet size; the
    acknowledgment builder uses the constant [MQTT_PACKET_PUBACK_SIZE]. *)
Definition queries_size (b : builder) : bool :=
  match b with
  | Puback _ => false
  | _ => true
  end.

(** ** A concrete library, for running the wrappers

    The size queries report a remaining length of 12 and a packet of 14
    bytes when [sizeStatus] is success, and fail with [sizeStatus] without
    storing anything otherwise; the serializers refuse a null buffer with
    [MQTTBadParameter] and return [serializeStatus] otherwise; the decoders
    store identifier 7 and return [deserializeStatus]; the allocator returns
    [NULL] when [base] is, and blocks 256 bytes apart from [base] on
    otherwise. *)
Definition decoded_publish : MQTTPublishInfo_t :=
  {| MQTTPublishInfo.qos := 1;
     MQTTPublishInfo.retain := true;
     MQTTPublishInfo.dup := Some false;
     MQTTPublishInfo.pTopicName := 8194;
     MQTTPublishInfo.topicNameLength := 3;
     MQTTPublishInfo.pPayload := 8199;
     MQTTPublishInfo.payloadLength := 2 |}.

Definition sized (sizeStatus : MQTTStatus_t) (remainingLength size : size_t)
  : MQTTStatus_t * size_t * size_t :=
  if MQTTStatus_eqb sizeStatus MQTTSuccess
  then (MQTTSuccess, 12, 14)
  else (sizeStatus, remainingLength, size).

Definition serialized (serializeStatus : MQTTStatus_t)
           (buffer : MQTTFixedBuffer_t) : MQTTStatus_t :=
  if MQTTFixedBuffer.pBuffer buffer =? NULL
  then MQTTBadParameter
  else serializeStatus.

Definition sample_library (base : pointer)
           (sizeStatus serializeStatus deserializeStatus : MQTTStatus_t)
  : Collaborators :=
  {| MQTT_PACKET_TYPE_PUBACK := 64;
     sizeof_MQTTSubscribeInfo_t := 12;
     SIZE_MAX := 2 ^ 32 - 1;
     malloc_answer := fun live _ =>
       if base =? NULL then NULL
       else base + 256 * Z.of_nat (length live);
     MQTT_GetConnectPacketSize := fun _ _ => sized sizeStatus;
     MQTT_SerializeConnect := fun _ _ _ => serialized serializeStatus;
     MQTT_GetDisconnectPacketSize := fun size =>
       if MQTTStatus_eqb sizeStatus MQTTSuccess
       then (MQTTSuccess, 2)
       else (sizeStatus, size);
     MQTT_SerializeDisconnect := serialized serializeStatus;
     MQTT_GetSubscribePacketSize := fun _ _ _ => sized sizeStatus;
     MQTT_SerializeSubscribe := fun _ _ _ _ _ => serialized serializeStatus;
     MQTT_GetUnsubscribePacketSize := fun _ _ _ => sized sizeStatus;
     MQTT_SerializeUnsubscribe := fun _ _ _ _ _ => serialized serializeStatus;
     MQTT_GetPublishPacketSize := fun _ => sized sizeStatus;
     MQTT_SerializePublish := fun _ _ _ => serialized serializeStatus;
     MQTT_GetPingreqPacketSize := fun size =>
       if MQTTStatus_eqb sizeStatus MQTTSuccess
       then (MQTTSuccess, 2)
       else (sizeStatus, size);
     MQTT_SerializePingreq := serialized serializeStatus;
     MQTT_SerializeAck := fun buffer _ _ => serialized serializeStatus buffer;
     MQTT_DeserializeAck := fun _ _ _ => (deserializeStatus, 7);
     MQTT_DeserializePublish := fun _ _ =>
       (deserializeStatus, 7, decoded_publish) |}.

(** A library on which every step succeeds. *)
Definition working_library : Collaborators :=
  sample_library 4096 MQTTSuccess MQTTSuccess MQTTSuccess.

(** A publish of two bytes to a topic of three characters. *)
Definition sample_publish (qos : Z) : IotMqttPublishInfo_t :=
  {| IotMqttPublishInfo.qos := qos;
     IotMqttPublishInfo.retain := false;
     IotMqttPublishInfo.pTopicName := 12288;
     IotMqttPublishInfo.topicNameLength := 3;
     IotMqttPublishInfo.pPayload := 12292;
     IotMqttPublishInfo.payloadLength := 2 |}.

Definition sample_connect : IotMqttConnectInfo_t :=
  {| IotMqttConnectInfo.cleanSession := true;
     IotMqttConnectInfo.keepAliveSeconds := 60;
     IotMqttConnectInfo.pClientIdentifier := 12300;
     IotMqttConnectInfo.clientIdentifierLength := 6;
     IotMqttConnectInfo.pUserName := NULL;
     IotMqttConnectInfo.userNameLength := 0;
     IotMqttConnectInfo.pPassword := NULL;
     IotMqttConnectInfo.passwordLength := 0;
     IotMqttConnectInfo.pWillInfo := None |}.

Definition sample_subscriptions : list IotMqttSubscription_t :=
  [ {| IotMqttSubscription.qos := 1;
       IotMqttSubscription.pTopicFilter := 12320;
       IotMqttSubscription.topicFilterLength := 9 |};
    {| IotMqttSubscription.qos := 0;
       IotMqttSubscription.pTopicFilter := 12330;
       IotMqttSubscription.topicFilterLength := 8 |} ].

(** The caller's cells before a call: no buffer, size 0, identifier 0. *)
Definition empty_slots : slots :=
  {| packet := NULL; packetSize := 0; identifier := 0 |}.

(** A received packet whose cells hold identifier 21 and an earlier
    publish. *)
Definition sample_packet : _mqttPacket_t :=
  {| mqttPacket.type := 144;
     mqttPacket.pRemainingData := 16384;
     mqttPacket.remainingLength := 3;
     mqttPacket.packetIdentifier := 21;
     mqttPacket.publishInfo := sample_publish 0 |}.

(** ** More readings of the record of calls *)

(** The status a call of the wire-format library returned, size query or
    serialize call. *)
Definition library_status (c : call) : option MQTTStatus_t :=
  match size_query_answer c, serialize_answer c with
  | Some (status, _), _ => Some status
  | None, Some (_, status) => Some status
  | None, None => None
  end.

(** The remaining length a size query left in the local
    [remainingLength]; the size queries of the two packets without a body
    have no such parameter. *)
Definition size_query_remaining (c : call) : option size_t :=
  match c with
  | MQTT_GetConnectPacketSize_call _ _ (_, remainingLength, _)
  | MQTT_GetSubscribePacketSize_call _ _ _ (_, remainingLength, _)
  | MQTT_GetUnsubscribePacketSize_call _ _ _ (_, remainingLength, _)
  | MQTT_GetPublishPacketSize_call _ (_, remainingLength, _) =>
      Some remainingLength
  | _ => None
  end.

(** The remaining length a serialize call was given. *)
Definition serialize_remaining (c : call) : option size_t :=
  match c with
  | MQTT_SerializeConnect_call _ _ remainingLength _ _
  | MQTT_SerializeSubscribe_call _ _ _ _ remainingLength _ _
  | MQTT_SerializeUnsubscribe_call _ _ _ _ remainingLength _ _
  | MQTT_SerializePublish_call _ _ remainingLength _ _ =>
      Some remainingLength
  | _ => None
  end.

(** What a call of the library was asked to measure or to write: a
    connection with its will, an array of subscriptions, a publish. *)
Inductive subject : Type :=
| connect_subject (info : MQTTConnectInfo_t)
                  (will : option MQTTPublishInfo_t)
| list_subject (list_ : pointer) (elements : list MQTTSubscribeInfo_t)
               (count : size_t)
| publish_subject (info : MQTTPublishInfo_t).

Definition call_subject (c : call) : option subject :=
  match c with
  | MQTT_GetConnectPacketSize_call info will _
  | MQTT_SerializeConnect_call info will _ _ _ =>
      Some (connect_subject info will)
  | MQTT_GetSubscribePacketSize_call list_ elements count _
  | MQTT_SerializeSubscribe_call list_ elements count _ _ _ _
  | MQTT_GetUnsubscribePacketSize_call list_ elements count _
  | MQTT_SerializeUnsubscribe_call list_ elements count _ _ _ _ =>
      Some (list_subject list_ elements count)
  | MQTT_GetPublishPacketSize_call info _
  | MQTT_SerializePublish_call info _ _ _ _ =>
      Some (publish_subject info)
  | _ => None
  end.

(** The builders that translate an array of subscriptions first. *)
Definition translates_list (b : builder) : bool :=
  match b with
  | Subscribe _ | Unsubscribe _ => true
  | _ => false
  end.

(** The element the loop of the two subscription builders stores for one
    subscription of the caller. *)
Definition subscribe_info (s : IotMqttSubscription_t) : MQTTSubscribeInfo_t :=
  {| MQTTSubscribeInfo.qos := IotMqttSubscription.qos s;
     MQTTSubscribeInfo.pTopicFilter := IotMqttSubscription.pTopicFilter s;
     MQTTSubscribeInfo.topicFilterLength :=
       IotMqttSubscription.topicFilterLength s |}.

(** The size the two subscription builders request for the array. *)
Definition subscriptionList_size {C : Collaborators}
           (pSubscriptionList : list IotMqttSubscription_t) : size_t :=
  (sizeof_MQTTSubscribeInfo_t * Z.of_nat (length pSubscriptionList))
  mod (SIZE_MAX + 1).

(** The counter of the generator as every run of the process has it: a
    32-bit value that is odd. *)
Definition counter_odd (w : world) : Prop :=
  0 <= nextPacketIdentifier w < 2 ^ 32 /\
  Z.odd (nextPacketIdentifier w) = true.

(** The status the decoder a parser calls returns. *)
Definition decoded_status {C : Collaborators}
           (p : parser) (pPacket : _mqttPacket_t) : MQTTStatus_t :=
  match p with
  | Connack =>
      fst (MQTT_DeserializeAck (incoming pPacket)
                               (mqttPacket.packetIdentifier pPacket)
                               (Some false))
  | PublishIn =>
      fst (fst (MQTT_DeserializePublish
                  (incoming pPacket)
                  (mqttPacket.packetIdentifier pPacket)))
  | _ =>
      fst (MQTT_DeserializeAck (incoming pPacket)
                               (mqttPacket.packetIdentifier pPacket) None)
  end.

(** * Properties *)

(** ** The status translator *)

Lemma IotMqttError_eqb_eq (a b : IotMqttError_t) :
  IotMqttError_eqb a b = true <-> a = b.
Proof.
  unfold IotMqttError_eqb.
  destruct (IotMqttError_eq_dec a b); split; congruence.
Qed.

Lemma IotMqttError_eqb_neq (a b : IotMqttError_t) :
  IotMqttError_eqb a b = false <-> a <> b.
Proof.
  unfold IotMqttError_eqb.
  destruct (IotMqttError_eq_dec a b); split; congruence.
Qed.

(** What the [switch] computes, enumerator by enumerator. *)
Lemma convertReturnCode_computed (mqttStatus : MQTTStatus_t) :
  convertReturnCode mqttStatus =
  match mqttStatus with
  | MQTTBadParameter => IOT_MQTT_BAD_PARAMETER
  | MQTTNoMemory => IOT_MQTT_NO_MEMORY
  | MQTTSendFailed | MQTTRecvFailed => IOT_MQTT_NETWORK_ERROR
  | MQTTBadResponse => IOT_MQTT_BAD_RESPONSE
  | MQTTServerRefused => IOT_MQTT_SERVER_REFUSED
  | _ => IOT_MQTT_SUCCESS
  end.
Proof. destruct mqttStatus; reflexivity. Qed.

(** The translator agrees with the table of the specification on every
    status but the four whose sections do not end in [break]. *)
Lemma convertReturnCode_table_elsewhere (mqttStatus : MQTTStatus_t) :
  mqttStatus <> MQTTNoDataAvailable ->
  mqttStatus <> MQTTKeepAliveTimeout ->
  mqttStatus <> MQTTIllegalState ->
  mqttStatus <> MQTTStateCollision ->
  convertReturnCode mqttStatus = translate_table mqttStatus.
Proof. destruct mqttStatus; intros; try reflexivity; congruence. Qed.

(** C1, at the inputs where the code leaves the table: the sections of
    [MQTTNoDataAvailable] / [MQTTKeepAliveTimeout] and of [MQTTIllegalState]
    / [MQTTStateCollision] have no [break], so control runs on into
    [default] and the translator returns success for all four, where the
    table asks for timeout and for bad response. *)
Theorem convertReturnCode_falls_through :
  convertReturnCode MQTTNoDataAvailable = IOT_MQTT_SUCCESS /\
  convertReturnCode MQTTKeepAliveTimeout = IOT_MQTT_SUCCESS /\
  convertReturnCode MQTTIllegalState = IOT_MQTT_SUCCESS /\
  convertReturnCode MQTTStateCollision = IOT_MQTT_SUCCESS /\
  translate_table MQTTNoDataAvailable = IOT_MQTT_TIMEOUT /\
  translate_table MQTTKeepAliveTimeout = IOT_MQTT_TIMEOUT /\
  translate_table MQTTIllegalState = IOT_MQTT_BAD_RESPONSE /\
  translate_table MQTTStateCollision = IOT_MQTT_BAD_RESPONSE.
Proof. repeat split. Qed.

(** ** The identifier generator *)

Lemma uint16_uint32 (x : Z) : uint16 (uint32 x) = uint16 x.
Proof.
  unfold uint16, uint32.
  apply Z.mod_mod_divide.
  exists (2 ^ 16). reflexivity.
Qed.

Lemma uint32_step (x y : Z) : uint32 (uint32 x + y) = uint32 (x + y).
Proof. unfold uint32. apply Z.add_mod_idemp_l. discriminate. Qed.

(** One call returns the counter cut to 16 bits and moves it on by 2. *)
Lemma _nextPacketIdentifier_run (w : world) :
  _nextPacketIdentifier w =
  Done (uint16 (nextPacketIdentifier w))
       {| nextPacketIdentifier := uint32 (nextPacketIdentifier w + 2);
          heap := heap w |}
       [Atomic_Add_u32_call 2 (nextPacketIdentifier w)].
Proof. reflexivity. Qed.

(** [n] calls in a row, from any state. *)
Lemma identifiers_run (n : nat) :
  forall w : world,
  exists w' t,
    identifiers n w =
    Done (map (fun i => uint16 (nextPacketIdentifier w + 2 * Z.of_nat i))
              (seq 0 n))
         w' t /\
    heap w' = heap w.
Proof.
  induction n as [|n IH]; intros w.
  - exists w, []. split; reflexivity.
  - cbn [identifiers]. unfold bind at 1.
    rewrite _nextPacketIdentifier_run.
    destruct (IH {| nextPacketIdentifier := uint32 (nextPacketIdentifier w + 2);
                    heap := heap w |}) as (w' & t & Hrun & Hheap).
    unfold bind at 1. rewrite Hrun. cbn [ret nextPacketIdentifier].
    eexists _, _. split; [|exact Hheap].
    f_equal. cbn [seq map]. f_equal.
    + f_equal. lia.
    + rewrite <- seq_shift, map_map.
      apply map_ext; intros i.
      rewrite <- uint16_uint32, uint32_step, uint16_uint32.
      f_equal. lia.
Qed.

(** The identifier returned by call number [k] of the process. *)
Lemma identifier_of_call_value (k : nat) :
  identifier_of_call k = Some ((2 * Z.of_nat k + 1) mod 65536).
Proof.
  unfold identifier_of_call.
  destruct (identifiers_run (S k) initial_world) as (w' & t & Hrun & _).
  rewrite Hrun.
  rewrite nth_error_map, nth_error_seq.
  destruct (Nat.ltb_spec k (S k)) as [_|?]; [|lia].
  cbn [option_map initial_world nextPacketIdentifier Nat.add].
  unfold uint16. change (2 ^ 16) with 65536. do 2 f_equal. lia.
Qed.

(** C5: called one after the other from the initial state, the generator
    returns 1, 3, 5, ..., 65535 (call [k], counted from 0, returns [2k + 1]
    for the first 32768 calls), then the same sequence again (call
    [k + 32768] returns what call [k] did); no call returns 0, every value
    is an odd 16-bit number, and two calls less than 32768 apart never
    return the same value. *)
Theorem identifiers_odd_sequence :
  (forall k : nat,
      Z.of_nat k < 32768 ->
      identifier_of_call k = Some (2 * Z.of_nat k + 1)) /\
  (forall k : nat,
      identifier_of_call (k + Z.to_nat 32768) = identifier_of_call k) /\
  (forall (k : nat) (id : Z),
      identifier_of_call k = Some id ->
      id <> 0 /\ Z.odd id = true /\ 0 < id <= 65535) /\
  (forall i j : nat,
      Z.of_nat i < Z.of_nat j < Z.of_nat i + 32768 ->
      identifier_of_call i <> identifier_of_call j).
Proof.
  split; [|split; [|split]].
  - intros k Hk. rewrite identifier_of_call_value.
    rewrite Z.mod_small by lia. reflexivity.
  - intros k. rewrite !identifier_of_call_value. f_equal.
    replace (2 * Z.of_nat (k + Z.to_nat 32768) + 1)
      with (2 * Z.of_nat k + 1 + 1 * 65536) by lia.
    apply Z.mod_add. lia.
  - intros k id0. rewrite identifier_of_call_value. intros Hid.
    assert (Hid0 : id0 = (2 * Z.of_nat k + 1) mod 65536) by congruence.
    rewrite Hid0. clear Hid Hid0 id0.
    assert (Hodd : Z.odd ((2 * Z.of_nat k + 1) mod 65536) = true).
    { pose proof (Z.div_mod (2 * Z.of_nat k + 1) 65536 ltac:(lia)) as Hdiv.
      replace ((2 * Z.of_nat k + 1) mod 65536)
        with (2 * (Z.of_nat k - 32768 * ((2 * Z.of_nat k + 1) / 65536)) + 1)
        by lia.
      apply Z.odd_odd. }
    pose proof (Z.mod_pos_bound (2 * Z.of_nat k + 1) 65536 ltac:(lia))
      as Hrange.
    set (id := (2 * Z.of_nat k + 1) mod 65536) in *.
    assert (E : id <> 0) by (intros E; rewrite E in Hodd; discriminate).
    split; [exact E|]. split; [exact Hodd|]. lia.
  - intros i j Hij. rewrite !identifier_of_call_value. intros Heq.
    assert (E : (2 * Z.of_nat i + 1) mod 65536 =
                (2 * Z.of_nat j + 1) mod 65536) by congruence.
    clear Heq.
    assert (Hd : (2 * Z.of_nat j + 1 - (2 * Z.of_nat i + 1)) mod 65536 = 0).
    { rewrite Zminus_mod, <- E, Z.sub_diag. reflexivity. }
    apply Z.mod_divide in Hd; [|lia].
    destruct Hd as [q Hq]. lia.
Qed.

(** The first calls of the process return 1, 3, 5; the call after 32767
    others returns 65535 and the next one 1 again. *)
Lemma identifiers_odd_sequence_witness :
  identifier_of_call 0 = Some 1 /\
  identifier_of_call 1 = Some 3 /\
  identifier_of_call 2 = Some 5 /\
  identifier_of_call (Z.to_nat 32767) = Some 65535 /\
  identifier_of_call (0 + Z.to_nat 32768) = identifier_of_call 0 /\
  (forall id, identifier_of_call 2 = Some id ->
              id <> 0 /\ Z.odd id = true /\ 0 < id <= 65535) /\
  identifier_of_call 1 <> identifier_of_call 2.
Proof.
  destruct identifiers_odd_sequence as (Hfirst & Hwrap & Hodd & Hdistinct).
  split; [apply (Hfirst 0%nat); lia|].
  split; [apply (Hfirst 1%nat); lia|].
  split; [apply (Hfirst 2%nat); lia|].
  split; [rewrite (Hfirst (Z.to_nat 32767)) by lia; f_equal; lia|].
  split; [apply (Hwrap 0%nat)|].
  split; [apply (Hodd 2%nat)|].
  apply (Hdistinct 1%nat 2%nat). lia.
Defined.

(** ** The builders *)

Section Builders.

Context {C : Collaborators}.

(** The translation of the caller's subscription array. *)
Lemma fill_subscriptionList_nil (subscriptionList : pointer) (w : world) :
  fill_subscriptionList subscriptionList [] w = Done [] w [].
Proof. reflexivity. Qed.

Lemma fill_subscriptionList_null
      (subscriptionList : pointer) (s : IotMqttSubscription_t)
      (rest : list IotMqttSubscription_t) (w : world) :
  (subscriptionList =? NULL) = true ->
  fill_subscriptionList subscriptionList (s :: rest) w = Fault.
Proof. intros H. cbn [fill_subscriptionList]. rewrite H. reflexivity. Qed.

Lemma fill_subscriptionList_done
      (subscriptionList : pointer)
      (pSubscriptionList : list IotMqttSubscription_t) (w : world) :
  (subscriptionList =? NULL) = false ->
  exists elements,
    fill_subscriptionList subscriptionList pSubscriptionList w =
    Done elements w [] /\
    length elements = length pSubscriptionList.
Proof.
  intros H. induction pSubscriptionList as [|s rest IH].
  - exists []. split; reflexivity.
  - destruct IH as (elements & Hrun & Hlen).
    cbn [fill_subscriptionList]. rewrite H.
    unfold bind. rewrite Hrun. cbn [ret app].
    eexists. split; [reflexivity|]. cbn [length]. congruence.
Qed.

Lemma Done_inj {A : Type} (a a' : A) (w w' : world) (t t' : list call) :
  Done a w t = Done a' w' t' -> a = a' /\ w = w' /\ t = t'.
Proof. intros H. injection H. auto. Qed.

Lemma Some_pair_inj {A B : Type} (a a' : A) (b b' : B) :
  Some (a, b) = Some (a', b') -> a = a' /\ b = b'.
Proof. intros H. injection H. auto. Qed.

Lemma IotMqtt_MallocMessage_call_inj (size size' : size_t) (p p' : pointer) :
  IotMqtt_MallocMessage_call size p = IotMqtt_MallocMessage_call size' p' ->
  size = size' /\ p = p'.
Proof. intros H. injection H. auto. Qed.

Lemma Some_inj {A : Type} (a a' : A) : Some a = Some a' -> a = a'.
Proof. intros H. injection H. auto. Qed.

(** Symbolic execution of a builder: the hypothesis [H] that a run ended
    in [Done] is unfolded, every answer of a collaborator is named, and the
    two tests [status == IOT_MQTT_SUCCESS] are decided both ways. *)
Ltac name_answers H :=
  repeat match type of H with
    | context [match ?x with pair _ _ => _ end] =>
        let E := fresh "Hanswer" in
        destruct x eqn:E; cbv beta iota in H
    end.

Ltac decide_tests H :=
  repeat match type of H with
    | context [IotMqttError_eqb ?a IOT_MQTT_SUCCESS] =>
        let E := fresh "Htest" in
        destruct (IotMqttError_eqb a IOT_MQTT_SUCCESS) eqn:E;
        [apply IotMqttError_eqb_eq in E | apply IotMqttError_eqb_neq in E];
        cbv beta iota in H
    end.

Ltac fill_list H :=
  match type of H with
  | context [fill_subscriptionList _ ?l _] => destruct l as [|? ?]
  | _ => idtac
  end;
  match type of H with
  | context [fill_subscriptionList ?p [] ?w] =>
      rewrite (fill_subscriptionList_nil p w) in H
  | context [fill_subscriptionList ?p (_ :: _) _] =>
      let E := fresh "Hnull" in
      destruct (p =? NULL) eqn:E;
      match type of H with
      | context [fill_subscriptionList ?p' (?s' :: ?rest') ?w'] =>
          first
            [ rewrite (fill_subscriptionList_null p' s' rest' w' E) in H;
              discriminate H
            | let els := fresh "elements" in
              let Hrun := fresh "Hfill" in
              let Hlen := fresh "Hlength" in
              destruct (fill_subscriptionList_done p' (s' :: rest') w' E)
                as (els & Hrun & Hlen);
              rewrite Hrun in H ]
      end
  | _ => idtac
  end;
  cbv beta iota in H.

Ltac run_builder H :=
  cbv [build _connectSerializeWrapper _disconnectSerializeWrapper
       _subscribeSerializeWrapper _unsubscribeSerializeWrapper
       _publishSerializeWrapper _pingreqSerializeWrapper
       _pubackSerializeWrapper bind lib ret IotMqtt_MallocMessage
       _nextPacketIdentifier Atomic_Add_u32] in H;
  try change (convertReturnCode MQTTSuccess) with IOT_MQTT_SUCCESS in H;
  try change (IotMqttError_eqb IOT_MQTT_SUCCESS IOT_MQTT_SUCCESS)
        with true in H;
  cbv beta iota in H;
  fill_list H;
  name_answers H;
  decide_tests H;
  try (exfalso; congruence);
  cbn [app] in H;
  cbn [heap nextPacketIdentifier] in H;
  apply Done_inj in H;
  (let Ha := fresh "Ha" in
   let Hw := fresh "Hw" in
   let Ht := fresh "Ht" in
   destruct H as (Ha & Hw & Ht);
   apply pair_equal_spec in Ha;
   destruct Ha as [? ?]);
  subst;
  try (exfalso; congruence);
  cbn [packet packetSize identifier heap nextPacketIdentifier
       MQTTFixedBuffer.pBuffer MQTTFixedBuffer.size] in *.

(** Cases of a membership in an explicit record of calls. *)
Ltac in_cases :=
  repeat match goal with
    | H : In _ (_ :: _) |- _ => destruct H as [<- | H]
    | H : In _ [] |- _ => destruct H
    end.

(** Cases of the membership of a given call in an explicit record. *)
Ltac find_call H :=
  cbn [In] in H;
  repeat match type of H with
    | _ \/ _ => destruct H as [H | H]
    end;
  try contradiction;
  try discriminate H;
  try (apply IotMqtt_MallocMessage_call_inj in H; destruct H as [? ?];
       subst).

(** A hypothesis that reads a call of an explicit record. *)
Ltac read_call H :=
  in_cases;
  cbn [size_query_answer serialize_answer serialized_identifier
       publish_descriptor] in H;
  try discriminate H;
  try (first [ apply Some_pair_inj in H; destruct H as [? ?]
             | apply Some_inj in H ];
       subst).

Ltac heap_case :=
  cbn [heap];
  match goal with
  | |- context [if ?p =? NULL then _ else _] =>
      let E := fresh "Hp" in
      destruct (p =? NULL) eqn:E;
      [apply Z.eqb_eq in E | apply Z.eqb_neq in E]
  end.

(** A call of the record with a given reading. *)
Ltac pick_call :=
  do 2 eexists; cbn [In];
  first [ split; [left; reflexivity | reflexivity]
        | split; [right; left; reflexivity | reflexivity]
        | split; [do 2 right; left; reflexivity | reflexivity]
        | split; [do 3 right; left; reflexivity | reflexivity]
        | split; [do 4 right; left; reflexivity | reflexivity] ].

(** C7: when a builder returns success, the packet size it leaves in the
    caller's cell is the total size the size query reported (the constant 4
    for the acknowledgment builder, which has no size query), and the buffer
    it hands over is the answer of the allocator to a request of exactly
    that size, and is the buffer, of that size, the serialize call was
    given; when it is not null it is an allocated block of that size. *)
Theorem success_buffer_has_reported_size
        (b : builder) (s s' : slots) (w w' : world) (t : list call) :
  build b s w = Done (IOT_MQTT_SUCCESS, s') w' t ->
  (if queries_size b
   then exists c mqttStatus,
          In c t /\ size_query_answer c = Some (mqttStatus, packetSize s')
   else packetSize s' = MQTT_PACKET_PUBACK_SIZE) /\
  (forall c mqttStatus size,
      In c t -> size_query_answer c = Some (mqttStatus, size) ->
      size = packetSize s') /\
  In (IotMqtt_MallocMessage_call (packetSize s') (packet s')) t /\
  (exists c mqttStatus,
      In c t /\
      serialize_answer c =
      Some ({| MQTTFixedBuffer.pBuffer := packet s';
               MQTTFixedBuffer.size := packetSize s' |}, mqttStatus)) /\
  (packet s' <> NULL -> In (packet s', packetSize s') (heap w')).
Proof.
  intros H. destruct b; run_builder H.
  all: cbn [queries_size packet packetSize MQTTFixedBuffer.pBuffer].
  all: repeat apply conj.
  all: try reflexivity.
  all: try pick_call.
  all: try (intros c ms n Hin Hq; in_cases; cbn in Hq; congruence).
  all: try (cbn [In]; solve [auto 10]).
  all: intros Hbuffer; repeat heap_case; try contradiction; cbn [In]; auto.
Qed.

(** No builder ends in a fault but the two that fill a subscription
    array. *)
Lemma build_returns (b : builder) (s : slots) (w : world) :
  (forall l, b <> Subscribe l) -> (forall l, b <> Unsubscribe l) ->
  exists st s' w' t, build b s w = Done (st, s') w' t.
Proof.
  intros Hs Hu.
  destruct b;
    try (exfalso;
         first [solve [eapply Hs; reflexivity]
               | solve [eapply Hu; reflexivity]]).
  all: cbv [build _connectSerializeWrapper _disconnectSerializeWrapper
            _publishSerializeWrapper _pingreqSerializeWrapper
            _pubackSerializeWrapper bind lib ret IotMqtt_MallocMessage
            _nextPacketIdentifier Atomic_Add_u32].
  all: repeat match goal with
         | |- context [match ?x with pair _ _ => _ end] =>
             destruct x; cbv beta iota
         | |- context [IotMqttError_eqb ?a IOT_MQTT_SUCCESS] =>
             destruct (IotMqttError_eqb a IOT_MQTT_SUCCESS); cbv beta iota
         end.
  all: do 4 eexists; reflexivity.
Qed.

(** The acknowledgment builder returns success whatever
    [MQTT_SerializeAck] returned, and hands over whatever the allocator
    answered. *)
Lemma _pubackSerializeWrapper_status
      (packetIdentifier : Z) (pPubackPacket : pointer) (pPacketSize : size_t)
      (w : world) :
  exists w' t,
    _pubackSerializeWrapper packetIdentifier pPubackPacket pPacketSize w =
    Done (IOT_MQTT_SUCCESS,
          malloc_answer (heap w) MQTT_PACKET_PUBACK_SIZE,
          MQTT_PACKET_PUBACK_SIZE) w' t.
Proof. do 2 eexists. reflexivity. Qed.


(** The gate of an identifier-consuming builder is on the translated
    status of the size query.  When that translated status is not
    success, the builder returns it at once: the size
    query is the last call it makes, so no packet buffer is requested and
    nothing is serialized, no identifier is drawn and the counter is where
    it was (the next draw returns what it would have returned before the
    call), and the buffer and identifier cells of the caller keep their
    values. *)
Theorem failed_size_query_short_circuits
        (b : builder) (s s' : slots) (w w' : world) (t : list call)
        (st : IotMqttError_t) (c : call) (mqttStatus : MQTTStatus_t)
        (size : size_t) :
  consumes_identifier b = true ->
  build b s w = Done (st, s') w' t ->
  In c t ->
  size_query_answer c = Some (mqttStatus, size) ->
  convertReturnCode mqttStatus <> IOT_MQTT_SUCCESS ->
  st = convertReturnCode mqttStatus /\
  after_size_query t = [] /\
  drawn t = [] /\
  nextPacketIdentifier w' = nextPacketIdentifier w /\
  (exists w'' t'',
      _nextPacketIdentifier w' =
      Done (uint16 (nextPacketIdentifier w)) w'' t'') /\
  (forall c', In c' t -> serialize_answer c' = None) /\
  packet s' = packet s /\
  identifier s' = identifier s.
Proof.
  intros Hb H Hin Hq Hfail.
  destruct b; try discriminate Hb; run_builder H.
  all: read_call Hq; try congruence.
  all: repeat apply conj; try reflexivity.
  all: try (do 2 eexists; reflexivity).
  all: intros c' Hin'; in_cases; reflexivity.
Qed.

(** C6: the publish descriptor the library is given, by the size query
    and by the serialize call alike, carries the QoS of the request and a
    duplicate flag that is set exactly when that QoS is 1; nothing of the
    caller's is copied into the flag. *)
Theorem publish_duplicate_flag_from_qos
        (pPublishInfo : IotMqttPublishInfo_t) (s : slots) (w : world) :
  exists st s' w' t info answer,
    build (Publish pPublishInfo) s w = Done (st, s') w' t /\
    hd_error t = Some (MQTT_GetPublishPacketSize_call info answer) /\
    (forall c info',
        In c t -> publish_descriptor c = Some info' -> info' = info) /\
    MQTTPublishInfo.qos info = IotMqttPublishInfo.qos pPublishInfo /\
    MQTTPublishInfo.dup info =
    Some (IotMqttPublishInfo.qos pPublishInfo =? IOT_MQTT_QOS_1) /\
    (MQTTPublishInfo.dup info = Some true <->
     IotMqttPublishInfo.qos pPublishInfo = IOT_MQTT_QOS_1) /\
    (IotMqttPublishInfo.qos pPublishInfo <> IOT_MQTT_QOS_1 ->
     MQTTPublishInfo.dup info = Some false).
Proof.
  destruct (build_returns (Publish pPublishInfo) s w)
    as (st & s' & w' & t & H); try discriminate.
  exists st, s', w', t.
  pose proof H as Hrun. run_builder H.
  all: do 2 eexists.
  all: split; [exact Hrun|].
  all: split; [reflexivity|].
  all: split;
    [intros c info' Hin Hd; read_call Hd; reflexivity|].
  all: cbn [MQTTPublishInfo.qos MQTTPublishInfo.dup].
  all: split; [reflexivity|].
  all: destruct (IotMqttPublishInfo.qos pPublishInfo =? IOT_MQTT_QOS_1)
         eqn:Hqos;
    [apply Z.eqb_eq in Hqos | apply Z.eqb_neq in Hqos].
  all: repeat split; try congruence; try discriminate.
Qed.

(** C8, as the code has it: on a failure a builder leaves the buffer cell
    and the identifier cell of the caller as they were, and a parser leaves
    the publish cell (and the description of the received bytes) as it was.
    The packet-size cell and the identifier cell of a received packet are
    handed to the library itself: the first holds what the size query
    stored, the second what the decoder stored, whatever the status. *)
Theorem failure_keeps_buffer_and_publish_cells :
  (forall (b : builder) (s s' : slots) (w w' : world) (t : list call)
          (st : IotMqttError_t),
      build b s w = Done (st, s') w' t ->
      st <> IOT_MQTT_SUCCESS ->
      packet s' = packet s /\
      identifier s' = identifier s /\
      (forall c mqttStatus size,
          In c t -> size_query_answer c = Some (mqttStatus, size) ->
          packetSize s' = size)) /\
  (forall (p : parser) (pPacket pPacket' : _mqttPacket_t)
          (st : IotMqttError_t),
      parse p pPacket = (st, pPacket') ->
      st <> IOT_MQTT_SUCCESS ->
      mqttPacket.publishInfo pPacket' = mqttPacket.publishInfo pPacket /\
      incoming pPacket' = incoming pPacket /\
      mqttPacket.packetIdentifier pPacket' = decoded_identifier p pPacket).
Proof.
  split.
  - intros b s s' w w' t st H Hst. destruct b; run_builder H.
    all: repeat apply conj; try reflexivity.
    all: intros c ms n Hin Hq; read_call Hq; reflexivity.
  - intros p pPacket pPacket' st H Hst.
    destruct p;
      cbv [parse _deserializeConnackWrapper _deserializeSubackWrapper
           _deserializeUnsubackWrapper _deserializePubackWrapper
           _deserializePingrespWrapper _deserializePublishWrapper
           decoded_identifier] in *.
    all: name_answers H; decide_tests H; try (exfalso; congruence).
    all: injection H; clear H; intros; subst.
    all: try (exfalso; congruence).
    all: cbn [fst snd]; repeat apply conj; reflexivity.
Qed.

Lemma convertReturnCode_no_memory (mqttStatus : MQTTStatus_t) :
  convertReturnCode mqttStatus = IOT_MQTT_NO_MEMORY ->
  mqttStatus = MQTTNoMemory.
Proof. destruct mqttStatus; intros H; try discriminate H; reflexivity. Qed.

(** C9, as the code has it: a builder with a size query does not look at
    what the allocator answered.  When the allocation of the packet buffer,
    the one that follows the size query, returns null, the builder goes on:
    it makes the serialize call, on a buffer whose pointer is null and whose
    size is the size requested, and returns the translation of the status of
    that call, so that it returns no-memory only when the serialize call
    reported [MQTTNoMemory]; the caller's buffer cell keeps its value when
    that status is a failure and receives the null pointer when it is
    success. *)
Theorem allocation_failure_status_from_serialize
        (b : builder) (s s' : slots) (w w' : world) (t : list call)
        (st : IotMqttError_t) (size : size_t) :
  queries_size b = true ->
  build b s w = Done (st, s') w' t ->
  In (IotMqtt_MallocMessage_call size NULL) (after_size_query t) ->
  exists ser mqttStatus,
    In ser (after_size_query t) /\
    serialize_answer ser =
    Some ({| MQTTFixedBuffer.pBuffer := NULL;
             MQTTFixedBuffer.size := size |}, mqttStatus) /\
    st = convertReturnCode mqttStatus /\
    (st = IOT_MQTT_NO_MEMORY -> mqttStatus = MQTTNoMemory) /\
    (st <> IOT_MQTT_SUCCESS -> packet s' = packet s) /\
    (st = IOT_MQTT_SUCCESS -> packet s' = NULL).
Proof.
  intros Hb H Hin.
  destruct b; try discriminate Hb; run_builder H.
  all: cbn [after_size_query size_query_answer] in Hin |- *.
  all: find_call Hin.
  all: match goal with
       | Hnull : malloc_answer _ _ = NULL |- _ => rewrite Hnull in *
       end.
  all: do 2 eexists; cbn [In].
  all: first
         [ split; [right; left; reflexivity|]; split; [reflexivity|]
         | split; [do 2 right; left; reflexivity|]; split; [reflexivity|] ].
  all: split; [reflexivity|].
  all: split; [apply convertReturnCode_no_memory|].
  all: split; [intros Hst; try reflexivity; exfalso; congruence|].
  all: intros Hst; try reflexivity; exfalso; congruence.
Qed.


(** ** What every builder and parser does *)

Lemma convertReturnCode_not_timeout (mqttStatus : MQTTStatus_t) :
  convertReturnCode mqttStatus <> IOT_MQTT_TIMEOUT.
Proof. destruct mqttStatus; discriminate. Qed.

Lemma convertReturnCode_failure (mqttStatus : MQTTStatus_t) :
  convertReturnCode mqttStatus <> IOT_MQTT_SUCCESS ->
  mqttStatus <> MQTTSuccess.
Proof. intros H E. apply H. rewrite E. reflexivity. Qed.

(** Symbolic execution of a parser. *)
Ltac run_parser H :=
  cbv [parse _deserializeConnackWrapper _deserializeSubackWrapper
       _deserializeUnsubackWrapper _deserializePubackWrapper
       _deserializePingrespWrapper _deserializePublishWrapper] in H;
  name_answers H;
  decide_tests H;
  try (exfalso; congruence);
  apply pair_equal_spec in H;
  (let Hst := fresh "Hst" in
   let Hpkt := fresh "Hpkt" in
   destruct H as [Hst Hpkt]);
  subst.

(** X1: the translator has no way to return [IOT_MQTT_TIMEOUT] (the one
    section that assigns it runs on into [default]), so no builder and no
    parser ever returns it. *)
Theorem no_wrapper_returns_timeout :
  (forall mqttStatus, convertReturnCode mqttStatus <> IOT_MQTT_TIMEOUT) /\
  (forall (b : builder) (s s' : slots) (w w' : world) (t : list call)
          (st : IotMqttError_t),
      build b s w = Done (st, s') w' t -> st <> IOT_MQTT_TIMEOUT) /\
  (forall (p : parser) (pPacket pPacket' : _mqttPacket_t)
          (st : IotMqttError_t),
      parse p pPacket = (st, pPacket') -> st <> IOT_MQTT_TIMEOUT).
Proof.
  split; [exact convertReturnCode_not_timeout|]. split.
  - intros b s s' w w' t st H. destruct b; run_builder H.
    all: first [apply convertReturnCode_not_timeout | discriminate].
  - intros p pPacket pPacket' st H. destruct p; run_parser H.
    all: apply convertReturnCode_not_timeout.
Qed.

(** X2: a failure is never made up.  A builder that returns a failure
    returns the translation of the status of a call of the library it made,
    and that call did not return [MQTTSuccess]; a parser returns, always, the
    translation of the status of its decoder. *)
Theorem failure_comes_from_the_library :
  (forall (b : builder) (s s' : slots) (w w' : world) (t : list call)
          (st : IotMqttError_t),
      build b s w = Done (st, s') w' t ->
      st <> IOT_MQTT_SUCCESS ->
      exists c mqttStatus,
        In c t /\ library_status c = Some mqttStatus /\
        mqttStatus <> MQTTSuccess /\
        st = convertReturnCode mqttStatus) /\
  (forall (p : parser) (pPacket pPacket' : _mqttPacket_t)
          (st : IotMqttError_t),
      parse p pPacket = (st, pPacket') ->
      st = convertReturnCode (decoded_status p pPacket) /\
      (st <> IOT_MQTT_SUCCESS -> decoded_status p pPacket <> MQTTSuccess)).
Proof.
  split.
  - intros b s s' w w' t st H Hst. destruct b; run_builder H.
    all: do 2 eexists; cbn [In].
    all: first
           [ split; [left; reflexivity|];
             split; [reflexivity|];
             split; [apply convertReturnCode_failure; assumption
                    | reflexivity]
           | split; [right; left; reflexivity|];
             split; [reflexivity|];
             split; [apply convertReturnCode_failure; assumption
                    | reflexivity]
           | split; [do 2 right; left; reflexivity|];
             split; [reflexivity|];
             split; [apply convertReturnCode_failure; assumption
                    | reflexivity]
           | split; [do 3 right; left; reflexivity|];
             split; [reflexivity|];
             split; [apply convertReturnCode_failure; assumption
                    | reflexivity]
           | split; [do 4 right; left; reflexivity|];
             split; [reflexivity|];
             split; [apply convertReturnCode_failure; assumption
                    | reflexivity] ].
  - intros p pPacket pPacket' st H.
    assert (Hst : st = convertReturnCode (decoded_status p pPacket)).
    { destruct p; cbv [decoded_status]; run_parser H.
      all: reflexivity. }
    split; [exact Hst|].
    intros Hfail. apply convertReturnCode_failure. congruence.
Qed.

Ltac protocol_end :=
  first
    [ left; split; [assumption|]; split; reflexivity
    | right; split; [assumption|];
      do 3 eexists; split; [reflexivity|]; split; reflexivity ].

(** X3: the order of the steps of a builder with a size query.  The
    record of its calls is: the allocation of the array for the two
    subscription builders and nothing for the others; the size query; and
    then nothing more when the translated status of the size query is a
    failure, which is returned, or else the draw of an identifier for the
    three builders that carry one, the allocation of exactly the size the
    size query reported, and the serialize call on that buffer, the
    translation of whose status is returned. *)
Theorem builder_protocol
        (b : builder) (s s' : slots) (w w' : world) (t : list call)
        (st : IotMqttError_t) :
  queries_size b = true ->
  build b s w = Done (st, s') w' t ->
  exists pre q mqttStatus size rest,
    t = pre ++ q :: rest /\
    (if translates_list b
     then exists n p, pre = [IotMqtt_MallocMessage_call n p]
     else pre = []) /\
    size_query_answer q = Some (mqttStatus, size) /\
    ((convertReturnCode mqttStatus <> IOT_MQTT_SUCCESS /\
      rest = [] /\
      st = convertReturnCode mqttStatus) \/
     (convertReturnCode mqttStatus = IOT_MQTT_SUCCESS /\
      exists p ser mqttStatus',
        rest =
        (if consumes_identifier b
         then [Atomic_Add_u32_call 2 (nextPacketIdentifier w)]
         else []) ++
        [IotMqtt_MallocMessage_call size p; ser] /\
        serialize_answer ser =
        Some ({| MQTTFixedBuffer.pBuffer := p;
                 MQTTFixedBuffer.size := size |}, mqttStatus') /\
        st = convertReturnCode mqttStatus')).
Proof.
  intros Hb H. destruct b; try discriminate Hb; run_builder H.
  all: cbn [translates_list consumes_identifier].
  all: first [ exists (@nil call); do 4 eexists;
               split; [reflexivity|]; split; [reflexivity|];
               split; [reflexivity|]; protocol_end
             | eexists (cons _ nil); do 4 eexists;
               split; [reflexivity|];
               split; [do 2 eexists; reflexivity|];
               split; [reflexivity|]; protocol_end ].
Qed.

(** X4: a builder only ever allocates.  Its record contains no release,
    and at its return the allocated blocks are the ones that were allocated
    before the call and the ones its allocations returned, at most two,
    whatever the status. *)
Theorem builder_only_allocates
        (b : builder) (s s' : slots) (w w' : world) (t : list call)
        (st : IotMqttError_t) :
  build b s w = Done (st, s') w' t ->
  heap w' = allocated t ++ heap w /\
  (length (allocated t) <= 2)%nat /\
  (forall p, ~ In (IotMqtt_FreeMessage_call p) t).
Proof.
  intros H. destruct b; run_builder H.
  all: repeat apply conj.
  all: try (intros p Hin; find_call Hin; fail).
  all: cbn [allocated].
  all: repeat heap_case; cbn [allocated app length]; try reflexivity; lia.
Qed.

(** ** The array of the two subscription builders *)

Lemma fill_subscriptionList_map
      (subscriptionList : pointer)
      (pSubscriptionList : list IotMqttSubscription_t) (w : world) :
  (subscriptionList =? NULL) = false ->
  fill_subscriptionList subscriptionList pSubscriptionList w =
  Done (map subscribe_info pSubscriptionList) w [].
Proof.
  intros H. induction pSubscriptionList as [|s rest IH].
  - reflexivity.
  - cbn [fill_subscriptionList]. rewrite H.
    unfold bind. rewrite IH. reflexivity.
Qed.

(** The elements a run of a subscription builder stored are the
    translations of the caller's subscriptions. *)
Ltac elements_are_map :=
  repeat match goal with
    | Hf : fill_subscriptionList ?p ?l ?w = Done ?e _ _,
      Hn : (?p =? NULL) = false |- _ =>
        rewrite (fill_subscriptionList_map p l w Hn) in Hf;
        apply Done_inj in Hf;
        destruct Hf as (Hf & _ & _);
        subst e
    end.

(** X5: the array of translated subscriptions that Subscribe and
    Unsubscribe allocate first is never given back, on success no more
    than on failure.  The first call of the builder requests
    [sizeof( MQTTSubscribeInfo_t ) * subscriptionCount] bytes; the address it
    gets is the one every call of the library is given; it is not null when
    there is a subscription to translate; and the block is still allocated
    when the builder returns, whatever the status. *)
Theorem subscription_array_stays_allocated
        (b : builder) (l : list IotMqttSubscription_t)
        (s s' : slots) (w w' : world) (t : list call)
        (st : IotMqttError_t) :
  b = Subscribe l \/ b = Unsubscribe l ->
  build b s w = Done (st, s') w' t ->
  exists p,
    hd_error t =
    Some (IotMqtt_MallocMessage_call (subscriptionList_size l) p) /\
    (l <> [] -> p <> NULL) /\
    (p <> NULL -> In (p, subscriptionList_size l) (heap w')) /\
    (forall c list_ elements count,
        In c t ->
        call_subject c = Some (list_subject list_ elements count) ->
        list_ = p).
Proof.
  intros [-> | ->] H; run_builder H.
  all: eexists; cbv [subscriptionList_size].
  all: split; [reflexivity|].
  all: split;
    [intros Hl; try (exfalso; apply Hl; reflexivity);
     apply Z.eqb_neq; assumption|].
  all: split;
    [intros Hp; repeat heap_case; try contradiction; cbn [In]; auto|].
  all: intros c list_ elements0 count Hin Hsubject; in_cases;
    cbn [call_subject] in Hsubject; try discriminate Hsubject;
    apply Some_inj in Hsubject;
    injection Hsubject; intros; subst; reflexivity.
Qed.

(** X6: for Subscribe and Unsubscribe, the array every call of the library
    is given holds the translations of the caller's subscriptions, one for
    one and in the caller's order (QoS, filter and filter length copied),
    and the count is the number of subscriptions; the size query is always
    among those calls. *)
Theorem subscriptions_translated_in_order
        (b : builder) (l : list IotMqttSubscription_t)
        (s s' : slots) (w w' : world) (t : list call)
        (st : IotMqttError_t) :
  b = Subscribe l \/ b = Unsubscribe l ->
  build b s w = Done (st, s') w' t ->
  (exists c list_,
      In c t /\
      call_subject c =
      Some (list_subject list_ (map subscribe_info l)
                         (Z.of_nat (length l)))) /\
  (forall c list_ elements count,
      In c t ->
      call_subject c = Some (list_subject list_ elements count) ->
      elements = map subscribe_info l /\
      count = Z.of_nat (length l)).
Proof.
  intros [-> | ->] H; run_builder H; elements_are_map.
  all: split;
    [do 2 eexists; cbn [In]; split; [right; left; reflexivity|reflexivity]|].
  all: intros c list_ elements0 count Hin Hsubject; in_cases;
    cbn [call_subject] in Hsubject; try discriminate Hsubject;
    apply Some_inj in Hsubject;
    injection Hsubject; intros; subst; split; reflexivity.
Qed.

(** A subscription builder returns when its array could be allocated or
    has no element to receive. *)
Lemma list_build_returns
      (b : builder) (l : list IotMqttSubscription_t)
      (s : slots) (w : world) :
  b = Subscribe l \/ b = Unsubscribe l ->
  l = [] \/ malloc_answer (heap w) (subscriptionList_size l) <> NULL ->
  exists st s' w' t, build b s w = Done (st, s') w' t.
Proof.
  intros Hb Hl.
  assert (Hfill : forall w0,
             exists elements,
               fill_subscriptionList
                 (malloc_answer (heap w) (subscriptionList_size l)) l w0 =
               Done elements w0 []).
  { intros w0. destruct Hl as [-> | Hp].
    - exists []. reflexivity.
    - apply Z.eqb_neq in Hp.
      destruct (fill_subscriptionList_done _ l w0 Hp) as (e & He & _).
      exists e. exact He. }
  destruct Hb as [-> | ->].
  all: cbv [build _subscribeSerializeWrapper _unsubscribeSerializeWrapper
            bind lib ret IotMqtt_MallocMessage _nextPacketIdentifier
            Atomic_Add_u32].
  all: cbv [subscriptionList_size] in Hfill.
  all: match goal with
       | |- context [fill_subscriptionList ?p ?l0 ?w0] =>
           destruct (Hfill w0) as (e & He); rewrite He
       end.
  all: cbv beta iota.
  all: repeat match goal with
         | |- context [match ?x with pair _ _ => _ end] =>
             destruct x; cbv beta iota
         | |- context [IotMqttError_eqb ?a IOT_MQTT_SUCCESS] =>
             destruct (IotMqttError_eqb a IOT_MQTT_SUCCESS); cbv beta iota
         end.
  all: do 4 eexists; reflexivity.
Qed.

(** X7: the one way a builder does not return.  A build writes through a
    null pointer exactly when it is a Subscribe or an Unsubscribe of at
    least one subscription and the allocator has no block for the array; a
    build of an empty list goes on with the null array, and the five other
    builders always return. *)
Theorem build_faults_iff (b : builder) (s : slots) (w : world) :
  build b s w = Fault <->
  exists l,
    (b = Subscribe l \/ b = Unsubscribe l) /\
    l <> [] /\
    malloc_answer (heap w) (subscriptionList_size l) = NULL.
Proof.
  split.
  - intros H.
    assert (Hlist : forall l,
               b = Subscribe l \/ b = Unsubscribe l ->
               l <> [] /\
               malloc_answer (heap w) (subscriptionList_size l) = NULL).
    { intros l Hb.
      destruct l as [|i l].
      - destruct (list_build_returns b [] s w Hb (or_introl eq_refl))
          as (st & s' & w' & t & Hrun).
        congruence.
      - split; [discriminate|].
        destruct (Z.eq_dec
                    (malloc_answer (heap w) (subscriptionList_size (i :: l)))
                    NULL) as [E|E]; [exact E|].
        destruct (list_build_returns b (i :: l) s w Hb (or_intror E))
          as (st & s' & w' & t & Hrun).
        congruence. }
    destruct b as [info| |l0|l0|info| |id];
      try (match type of H with
           | build ?b0 _ _ = Fault =>
               destruct (build_returns b0 s w) as (st & s' & w' & t & Hrun);
               [discriminate | discriminate
               | rewrite Hrun in H; discriminate H]
           end).
    + exists l0.
      destruct (Hlist l0 (or_introl eq_refl)). auto.
    + exists l0.
      destruct (Hlist l0 (or_intror eq_refl)). auto.
  - intros (l & Hb & Hl & Hp).
    destruct l as [|i l]; [contradiction|].
    apply Z.eqb_eq in Hp. cbv [subscriptionList_size] in Hp.
    destruct Hb as [-> | ->].
    all: cbv [build _subscribeSerializeWrapper _unsubscribeSerializeWrapper
              bind IotMqtt_MallocMessage].
    all: match goal with
         | |- context [fill_subscriptionList ?p (?i0 :: ?l0) ?w0] =>
             rewrite (fill_subscriptionList_null p i0 l0 w0 Hp)
         end.
    all: reflexivity.
Qed.

(** ** The identifiers the builders draw *)

(** X8: the four builders without an identifier parameter (Connect,
    Disconnect, PingRequest, Acknowledgment) leave the generator alone: they
    draw nothing, the counter is where it was, and the identifier cell of
    the caller is not written, whatever the status. *)
Theorem builders_without_identifier_draw_nothing
        (b : builder) (s s' : slots) (w w' : world) (t : list call)
        (st : IotMqttError_t) :
  consumes_identifier b = false ->
  build b s w = Done (st, s') w' t ->
  drawn t = [] /\
  nextPacketIdentifier w' = nextPacketIdentifier w /\
  identifier s' = identifier s.
Proof.
  intros Hb H. destruct b; try discriminate Hb; run_builder H.
  all: repeat split.
Qed.

(** X9: Subscribe, Unsubscribe and Publish draw their identifier before
    they allocate and serialize, so a failure of the serialize step loses
    it.  When the translated status of the size query is success, exactly
    one identifier is drawn and the counter moves on by 2, every serialize
    call is given that identifier, and the caller's identifier cell receives
    it on success and keeps its value on failure. *)
Theorem identifier_drawn_once_and_lost_on_failure
        (b : builder) (s s' : slots) (w w' : world) (t : list call)
        (st : IotMqttError_t) (q : call) (mqttStatus : MQTTStatus_t)
        (size : size_t) :
  consumes_identifier b = true ->
  build b s w = Done (st, s') w' t ->
  In q t ->
  size_query_answer q = Some (mqttStatus, size) ->
  convertReturnCode mqttStatus = IOT_MQTT_SUCCESS ->
  drawn t = [uint16 (nextPacketIdentifier w)] /\
  nextPacketIdentifier w' = uint32 (nextPacketIdentifier w + 2) /\
  (exists c, In c t /\
             serialized_identifier c =
             Some (uint16 (nextPacketIdentifier w))) /\
  (forall c id,
      In c t -> serialized_identifier c = Some id ->
      id = uint16 (nextPacketIdentifier w)) /\
  (st = IOT_MQTT_SUCCESS ->
   identifier s' = uint16 (nextPacketIdentifier w)) /\
  (st <> IOT_MQTT_SUCCESS -> identifier s' = identifier s).
Proof.
  intros Hb H Hin Hq Hok.
  destruct b; try discriminate Hb; run_builder H.
  all: read_call Hq; try (exfalso; congruence).
  all: repeat apply conj; try reflexivity; try congruence.
  all: try (eexists; cbn [In];
            first [ split; [do 3 right; left; reflexivity | reflexivity]
                  | split; [do 4 right; left; reflexivity | reflexivity] ]).
  all: intros c id Hin' Hid; read_call Hid; reflexivity.
Qed.

Lemma odd_uint32_add2 (c : Z) :
  0 <= c < 2 ^ 32 -> Z.odd c = true ->
  0 <= uint32 (c + 2) < 2 ^ 32 /\ Z.odd (uint32 (c + 2)) = true.
Proof.
  intros Hc Hodd. unfold uint32.
  split; [apply Z.mod_pos_bound; reflexivity|].
  pose proof (Z.div_mod (c + 2) (2 ^ 32) ltac:(discriminate)) as Hdiv.
  change (2 ^ 32) with (2 * 2147483648) in Hdiv at 1.
  replace ((c + 2) mod 2 ^ 32)
    with (c + 2 * (1 - 2147483648 * ((c + 2) / 2 ^ 32))) by lia.
  rewrite Z.odd_add_mul_2. exact Hodd.
Qed.

Lemma odd_uint16 (c : Z) :
  Z.odd c = true -> Z.odd (uint16 c) = true /\ 0 < uint16 c <= 65535.
Proof.
  intros Hodd. unfold uint16. change (2 ^ 16) with 65536.
  assert (Hr : Z.odd (c mod 65536) = true).
  { pose proof (Z.div_mod c 65536 ltac:(discriminate)) as Hdiv.
    replace (c mod 65536) with (c + 2 * (- 32768 * (c / 65536))) by lia.
    rewrite Z.odd_add_mul_2. exact Hodd. }
  split; [exact Hr|].
  pose proof (Z.mod_pos_bound c 65536 ltac:(reflexivity)) as Hrange.
  assert (c mod 65536 <> 0) by (intros E; rewrite E in Hr; discriminate).
  lia.
Qed.

(** A successful build of a builder that carries an identifier hands out
    the counter cut to 16 bits and moves the counter on by 2. *)
Lemma successful_draw
      (b : builder) (s s' : slots) (w w' : world) (t : list call) :
  consumes_identifier b = true ->
  build b s w = Done (IOT_MQTT_SUCCESS, s') w' t ->
  identifier s' = uint16 (nextPacketIdentifier w) /\
  nextPacketIdentifier w' = uint32 (nextPacketIdentifier w + 2).
Proof.
  intros Hb H. destruct b; try discriminate Hb; run_builder H.
  all: split; reflexivity.
Qed.

(** X10: the counter stays an odd 32-bit value through every builder, and
    from such a counter the identifier a successful Subscribe, Unsubscribe or
    Publish hands to its caller is an odd number between 1 and 65535: never
    the identifier 0 that MQTT forbids. *)
Theorem counter_stays_odd
        (b : builder) (s s' : slots) (w w' : world) (t : list call)
        (st : IotMqttError_t) :
  counter_odd w ->
  build b s w = Done (st, s') w' t ->
  counter_odd w' /\
  (consumes_identifier b = true -> st = IOT_MQTT_SUCCESS ->
   Z.odd (identifier s') = true /\ 0 < identifier s' <= 65535).
Proof.
  intros [Hrange Hodd] H.
  pose proof (odd_uint32_add2 _ Hrange Hodd) as [Hrange' Hodd'].
  pose proof (odd_uint16 _ Hodd) as Hid.
  destruct b; run_builder H.
  all: unfold counter_odd; cbn [nextPacketIdentifier consumes_identifier].
  all: split; [split; assumption|].
  all: intros Hb Hst; try discriminate Hb; try (exfalso; congruence).
  all: exact Hid.
Qed.

(** X11: identifiers are handed out in order across builders.  When two
    builds among Subscribe, Unsubscribe and Publish succeed one after the
    other, the second hands out the identifier of the first plus 2, wrapped
    at 16 bits. *)
Theorem consecutive_builds_consecutive_identifiers
        (b1 b2 : builder) (s1 s1' s2 s2' : slots) (w w1 w2 : world)
        (t1 t2 : list call) :
  consumes_identifier b1 = true ->
  consumes_identifier b2 = true ->
  build b1 s1 w = Done (IOT_MQTT_SUCCESS, s1') w1 t1 ->
  build b2 s2 w1 = Done (IOT_MQTT_SUCCESS, s2') w2 t2 ->
  identifier s2' = (identifier s1' + 2) mod 65536.
Proof.
  intros Hb1 Hb2 H1 H2.
  destruct (successful_draw b1 s1 s1' w w1 t1 Hb1 H1) as [Hid1 Hc1].
  destruct (successful_draw b2 s2 s2' w1 w2 t2 Hb2 H2) as [Hid2 _].
  rewrite Hid2, Hc1, Hid1, uint16_uint32.
  unfold uint16. change (2 ^ 16) with 65536.
  rewrite Z.add_mod_idemp_l by discriminate. reflexivity.
Qed.

(** ** What the serialize call is given *)

(** X12: a builder serializes what it measured.  In the record of any
    builder, the serialize call is given the descriptor the size query was
    given, the remaining length the size query stored, and a buffer whose
    [size] field is the total size the size query reported. *)
Theorem serialize_gets_what_was_measured
        (b : builder) (s s' : slots) (w w' : world) (t : list call)
        (st : IotMqttError_t) (q ser : call)
        (mqttStatus mqttStatus' : MQTTStatus_t) (size : size_t)
        (buffer : MQTTFixedBuffer_t) :
  build b s w = Done (st, s') w' t ->
  In q t ->
  size_query_answer q = Some (mqttStatus, size) ->
  In ser t ->
  serialize_answer ser = Some (buffer, mqttStatus') ->
  call_subject ser = call_subject q /\
  serialize_remaining ser = size_query_remaining q /\
  MQTTFixedBuffer.size buffer = size.
Proof.
  intros H Hq Hqa Hs Hsa. destruct b; run_builder H.
  all: in_cases.
  all: cbn [size_query_answer] in Hqa; try discriminate Hqa.
  all: cbn [serialize_answer] in Hsa; try discriminate Hsa.
  all: apply Some_pair_inj in Hqa; destruct Hqa as [? ?].
  all: apply Some_pair_inj in Hsa; destruct Hsa as [? ?].
  all: subst; repeat split.
Qed.

(** ** The parsers *)

(** X14: the five acknowledgment parsers write one cell.  Whatever the
    status, the packet a Connack, Suback, Unsuback, Puback or Pingresp parser
    leaves is the packet it was given with the identifier the decoder
    stored: the publish cell and the description of the received bytes are
    never touched, and nothing but the status tells a success from a
    failure.  The four parsers that pass no session flag are one function:
    they return the same result on the same packet. *)
Theorem acknowledgment_parsers_write_the_identifier_only
        (p : parser) (pPacket pPacket' : _mqttPacket_t)
        (st : IotMqttError_t) :
  p <> PublishIn ->
  parse p pPacket = (st, pPacket') ->
  pPacket' = with_packetIdentifier pPacket (decoded_identifier p pPacket) /\
  mqttPacket.publishInfo pPacket' = mqttPacket.publishInfo pPacket /\
  incoming pPacket' = incoming pPacket /\
  (forall p', p <> Connack -> p' <> Connack -> p' <> PublishIn ->
              parse p' pPacket = (st, pPacket')).
Proof.
  intros Hp H.
  assert (Hpkt : pPacket' =
                 with_packetIdentifier pPacket
                                       (decoded_identifier p pPacket)).
  { destruct p; try contradiction; cbv [decoded_identifier]; run_parser H.
    all: reflexivity. }
  split; [exact Hpkt|].
  split; [rewrite Hpkt; reflexivity|].
  split; [rewrite Hpkt; reflexivity|].
  intros p' Hc Hc' Hp'. rewrite <- H.
  destruct p; try contradiction; destruct p'; try contradiction.
  all: reflexivity.
Qed.

End Builders.

(** ** The wrappers on the sample library *)

(** A subscribe build on the working library: the array of two filters
    takes the first block, the packet of 14 bytes the second, and the
    identifier is the first of the process. *)
Example subscribe_on_working_library :
  exists t,
    @build working_library (Subscribe sample_subscriptions)
           empty_slots initial_world =
    Done (IOT_MQTT_SUCCESS,
          {| packet := 4352; packetSize := 14; identifier := 1 |})
         {| nextPacketIdentifier := 3; heap := [(4352, 14); (4096, 24)] |}
         t /\
    drawn t = [1] /\
    allocated t = [(4352, 14); (4096, 24)].
Proof. eexists. repeat split. Qed.

(** The same build when the allocator has nothing to give: the loop that
    fills the array writes through the null pointer. *)
Example subscribe_without_memory :
  @build (sample_library NULL MQTTSuccess MQTTSuccess MQTTSuccess)
         (Subscribe sample_subscriptions) empty_slots initial_world = Fault.
Proof. reflexivity. Qed.

(** Two publish builds draw 1 and then 3. *)
Example two_publish_builds :
  exists s1 w1 t1 s2 w2 t2,
    @build working_library (Publish (sample_publish 1))
           empty_slots initial_world = Done (IOT_MQTT_SUCCESS, s1) w1 t1 /\
    @build working_library (Publish (sample_publish 0))
           empty_slots w1 = Done (IOT_MQTT_SUCCESS, s2) w2 t2 /\
    identifier s1 = 1 /\ identifier s2 = 3 /\
    packet s1 = 4096 /\ packet s2 = 4352 /\
    nextPacketIdentifier w2 = 5.
Proof. do 6 eexists. repeat split. Qed.

(** A publish is decoded into the publish cell of the packet. *)
Example publish_decoded :
  @parse working_library PublishIn sample_packet =
  (IOT_MQTT_SUCCESS,
   {| mqttPacket.type := 144;
      mqttPacket.pRemainingData := 16384;
      mqttPacket.remainingLength := 3;
      mqttPacket.packetIdentifier := 7;
      mqttPacket.publishInfo :=
        {| IotMqttPublishInfo.qos := 1;
           IotMqttPublishInfo.retain := true;
           IotMqttPublishInfo.pTopicName := 8194;
           IotMqttPublishInfo.topicNameLength := 3;
           IotMqttPublishInfo.pPayload := 8199;
           IotMqttPublishInfo.payloadLength := 2 |} |}).
Proof. reflexivity. Qed.

(** Five draws from the initial state. *)
Example five_identifiers :
  exists w t, identifiers 5 initial_world = Done [1; 3; 5; 7; 9] w t.
Proof. do 2 eexists. reflexivity. Qed.

(** C2, at the failing input: the allocator answers [NULL],
    [MQTT_SerializeAck] refuses the null buffer with [MQTTBadParameter],
    whose translation is [IOT_MQTT_BAD_PARAMETER], and the acknowledgment
    builder for identifier 7 returns [IOT_MQTT_SUCCESS] all the same and
    stores the null buffer in the caller's cell. *)
Theorem puback_status_ignores_serialize_result :
  @_pubackSerializeWrapper
    (sample_library NULL MQTTSuccess MQTTSuccess MQTTSuccess)
    7 8192 0 initial_world =
  Done (IOT_MQTT_SUCCESS, NULL, 4) initial_world
       [IotMqtt_MallocMessage_call 4 NULL;
        MQTT_SerializeAck_call
          {| MQTTFixedBuffer.pBuffer := NULL; MQTTFixedBuffer.size := 4 |}
          64 7 MQTTBadParameter] /\
  convertReturnCode MQTTBadParameter = IOT_MQTT_BAD_PARAMETER /\
  translate_table MQTTBadParameter = IOT_MQTT_BAD_PARAMETER.
Proof. repeat split. Qed.



(** The test of the builders is on the translated status.  A size query
    that returns a status the translator turns into success (here a value
    that is no enumerator, by [default:]) does not stop the publish builder:
    it draws identifier 1 and goes on to allocate and serialize. *)
Remark untranslated_size_status_does_not_stop :
  ~ (forall (L : Collaborators) (b : builder) (s s' : slots)
            (w w' : world) (t : list call) (st : IotMqttError_t)
            (c : call) (mqttStatus : MQTTStatus_t) (size : size_t),
        consumes_identifier b = true ->
        @build L b s w = Done (st, s') w' t ->
        In c t ->
        size_query_answer c = Some (mqttStatus, size) ->
        mqttStatus <> MQTTSuccess ->
        after_size_query t = [] /\
        nextPacketIdentifier w' = nextPacketIdentifier w).
Proof.
  intros claim.
  destruct (claim (sample_library 4096 (MQTTUnrecognized 99)
                                  MQTTSuccess MQTTSuccess)
                  (Publish (sample_publish 1)) empty_slots _ initial_world
                  _ _ _ _ (MQTTUnrecognized 99) 0
                  eq_refl eq_refl (or_introl eq_refl) eq_refl
                  ltac:(discriminate))
    as [Hlast Hcounter].
  discriminate Hcounter.
Qed.

(** C4, at a failing input: the size query of a publish build fails with
    [MQTTNoDataAvailable], which the table of the specification translates
    to timeout.  Because the section of [convertReturnCode] that assigns
    timeout has no [break], the translated status is success, and the
    builder does not stop: it draws identifier 1, allocates a buffer, calls
    the serializer and returns success with the buffer and the identifier in
    the caller's cells. *)
Theorem failed_size_query_translated_to_success :
  @build (sample_library 4096 MQTTNoDataAvailable MQTTSuccess MQTTSuccess)
         (Publish (sample_publish 1)) empty_slots initial_world =
  Done (IOT_MQTT_SUCCESS,
        {| packet := 4096; packetSize := 0; identifier := 1 |})
       {| nextPacketIdentifier := 3; heap := [(4096, 0)] |}
       [MQTT_GetPublishPacketSize_call
          {| MQTTPublishInfo.qos := 1;
             MQTTPublishInfo.retain := false;
             MQTTPublishInfo.dup := Some true;
             MQTTPublishInfo.pTopicName := 12288;
             MQTTPublishInfo.topicNameLength := 3;
             MQTTPublishInfo.pPayload := 12292;
             MQTTPublishInfo.payloadLength := 2 |}
          (MQTTNoDataAvailable, 0, 0);
        Atomic_Add_u32_call 2 1;
        IotMqtt_MallocMessage_call 0 4096;
        MQTT_SerializePublish_call
          {| MQTTPublishInfo.qos := 1;
             MQTTPublishInfo.retain := false;
             MQTTPublishInfo.dup := Some true;
             MQTTPublishInfo.pTopicName := 12288;
             MQTTPublishInfo.topicNameLength := 3;
             MQTTPublishInfo.pPayload := 12292;
             MQTTPublishInfo.payloadLength := 2 |}
          1 0
          {| MQTTFixedBuffer.pBuffer := 4096; MQTTFixedBuffer.size := 0 |}
          MQTTSuccess] /\
  convertReturnCode MQTTNoDataAvailable = IOT_MQTT_SUCCESS /\
  translate_table MQTTNoDataAvailable = IOT_MQTT_TIMEOUT.
Proof. repeat split. Qed.

Lemma failed_size_query_short_circuits_witness :
  exists s' w' t c,
    consumes_identifier (Publish (sample_publish 1)) = true /\
    @build (sample_library 4096 MQTTBadParameter MQTTSuccess MQTTSuccess)
           (Publish (sample_publish 1)) empty_slots initial_world =
    Done (IOT_MQTT_BAD_PARAMETER, s') w' t /\
    In c t /\
    size_query_answer c = Some (MQTTBadParameter, 0) /\
    convertReturnCode MQTTBadParameter <> IOT_MQTT_SUCCESS /\
    after_size_query t = [] /\
    drawn t = [] /\
    nextPacketIdentifier w' = nextPacketIdentifier initial_world /\
    packet s' = packet empty_slots /\
    identifier s' = identifier empty_slots.
Proof.
  do 4 eexists.
  split; [reflexivity|].
  split; [reflexivity|].
  split; [left; reflexivity|].
  split; [reflexivity|].
  split; [discriminate|].
  destruct (@failed_size_query_short_circuits
              (sample_library 4096 MQTTBadParameter MQTTSuccess MQTTSuccess)
              (Publish (sample_publish 1)) empty_slots _ initial_world _ _
              _ _ MQTTBadParameter 0
              eq_refl eq_refl (or_introl eq_refl) eq_refl
              ltac:(discriminate))
    as (_ & Hlast & Hdrawn & Hcounter & _ & _ & Hpacket & Hid).
  repeat split; assumption.
Defined.

Lemma publish_duplicate_flag_from_qos_witness :
  (exists t info,
      (exists st s' w',
          @build working_library (Publish (sample_publish 1))
                 empty_slots initial_world = Done (st, s') w' t) /\
      (exists c, In c t /\ publish_descriptor c = Some info) /\
      IotMqttPublishInfo.qos (sample_publish 1) = IOT_MQTT_QOS_1 /\
      MQTTPublishInfo.dup info = Some true) /\
  (exists t info,
      (exists st s' w',
          @build working_library (Publish (sample_publish 0))
                 empty_slots initial_world = Done (st, s') w' t) /\
      (exists c, In c t /\ publish_descriptor c = Some info) /\
      IotMqttPublishInfo.qos (sample_publish 0) <> IOT_MQTT_QOS_1 /\
      MQTTPublishInfo.dup info = Some false).
Proof.
  split.
  - destruct (@publish_duplicate_flag_from_qos
                working_library (sample_publish 1) empty_slots initial_world)
      as (st & s' & w' & t & info & answer
          & Hrun & Hhead & _ & _ & _ & Hiff & _).
    exists t, info.
    split; [exists st, s', w'; exact Hrun|].
    split.
    + exists (MQTT_GetPublishPacketSize_call info answer).
      split; [|reflexivity].
      destruct t as [|c t]; [discriminate Hhead|].
      left. injection Hhead. auto.
    + split; [reflexivity|]. apply Hiff. reflexivity.
  - destruct (@publish_duplicate_flag_from_qos
                working_library (sample_publish 0) empty_slots initial_world)
      as (st & s' & w' & t & info & answer
          & Hrun & Hhead & _ & _ & _ & _ & Hother).
    exists t, info.
    split; [exists st, s', w'; exact Hrun|].
    split.
    + exists (MQTT_GetPublishPacketSize_call info answer).
      split; [|reflexivity].
      destruct t as [|c t]; [discriminate Hhead|].
      left. injection Hhead. auto.
    + split; [discriminate|]. apply Hother. discriminate.
Defined.

Lemma success_buffer_has_reported_size_witness :
  exists s' w' t,
    @build working_library (Subscribe sample_subscriptions)
           empty_slots initial_world =
    Done (IOT_MQTT_SUCCESS, s') w' t /\
    packetSize s' = 14 /\
    In (MQTT_GetSubscribePacketSize_call
          4096
          [ {| MQTTSubscribeInfo.qos := 1;
               MQTTSubscribeInfo.pTopicFilter := 12320;
               MQTTSubscribeInfo.topicFilterLength := 9 |};
            {| MQTTSubscribeInfo.qos := 0;
               MQTTSubscribeInfo.pTopicFilter := 12330;
               MQTTSubscribeInfo.topicFilterLength := 8 |} ]
          2 (MQTTSuccess, 12, 14)) t /\
    In (IotMqtt_MallocMessage_call 14 (packet s')) t /\
    packet s' <> NULL /\
    In (packet s', 14) (heap w').
Proof.
  do 3 eexists.
  split; [reflexivity|].
  destruct (@success_buffer_has_reported_size
              working_library (Subscribe sample_subscriptions)
              empty_slots _ initial_world _ _ eq_refl)
    as (_ & Hsize & Hmalloc & _ & Hblock).
  split; [reflexivity|].
  split; [right; left; reflexivity|].
  split; [exact Hmalloc|].
  split; [discriminate|].
  apply Hblock. discriminate.
Defined.

(** C8, the claim as the specification states it, is false, for a builder
    and for a parser.  The connect builder whose size query succeeded and
    whose serialize step failed returns [IOT_MQTT_NO_MEMORY] with 14 in the
    packet-size cell that held 0; the suback parser whose decoder stored
    identifier 7 and reported a refusal returns [IOT_MQTT_SERVER_REFUSED]
    with 7 in the identifier cell that held 21. *)
Lemma failure_changes_size_and_identifier_cells :
  ~ (forall (L : Collaborators) (b : builder) (s s' : slots)
            (w w' : world) (t : list call) (st : IotMqttError_t),
        @build L b s w = Done (st, s') w' t ->
        st <> IOT_MQTT_SUCCESS ->
        s' = s) /\
  ~ (forall (L : Collaborators) (p : parser)
            (pPacket pPacket' : _mqttPacket_t) (st : IotMqttError_t),
        @parse L p pPacket = (st, pPacket') ->
        st <> IOT_MQTT_SUCCESS ->
        mqttPacket.packetIdentifier pPacket' =
        mqttPacket.packetIdentifier pPacket /\
        mqttPacket.publishInfo pPacket' = mqttPacket.publishInfo pPacket).
Proof.
  split.
  - intros claim.
    pose proof (claim (sample_library 4096 MQTTSuccess MQTTNoMemory
                                      MQTTSuccess)
                      (Connect sample_connect) empty_slots _ initial_world
                      _ _ IOT_MQTT_NO_MEMORY eq_refl ltac:(discriminate))
      as Hsame.
    discriminate Hsame.
  - intros claim.
    destruct (claim (sample_library 4096 MQTTSuccess MQTTSuccess
                                    MQTTServerRefused)
                    Suback sample_packet _ IOT_MQTT_SERVER_REFUSED
                    eq_refl ltac:(discriminate))
      as [Hid _].
    discriminate Hid.
Qed.

Lemma failure_keeps_buffer_and_publish_cells_witness :
  (exists s' w' t,
      @build (sample_library 4096 MQTTSuccess MQTTNoMemory MQTTSuccess)
             (Connect sample_connect) empty_slots initial_world =
      Done (IOT_MQTT_NO_MEMORY, s') w' t /\
      IOT_MQTT_NO_MEMORY <> IOT_MQTT_SUCCESS /\
      packet s' = packet empty_slots /\
      identifier s' = identifier empty_slots /\
      packetSize s' = 14) /\
  (exists pPacket',
      @parse (sample_library 4096 MQTTSuccess MQTTSuccess MQTTBadResponse)
             PublishIn sample_packet = (IOT_MQTT_BAD_RESPONSE, pPacket') /\
      IOT_MQTT_BAD_RESPONSE <> IOT_MQTT_SUCCESS /\
      mqttPacket.publishInfo pPacket' = mqttPacket.publishInfo sample_packet /\
      mqttPacket.packetIdentifier pPacket' = 7).
Proof.
  split.
  - do 3 eexists.
    split; [reflexivity|].
    split; [discriminate|].
    destruct (@failure_keeps_buffer_and_publish_cells
                (sample_library 4096 MQTTSuccess MQTTNoMemory MQTTSuccess))
      as [Hbuild _].
    destruct (Hbuild (Connect sample_connect) empty_slots _ initial_world
                     _ _ IOT_MQTT_NO_MEMORY eq_refl ltac:(discriminate))
      as (Hpacket & Hid & Hsize).
    split; [exact Hpacket|]. split; [exact Hid|].
    eapply Hsize; [left; reflexivity | reflexivity].
  - eexists.
    split; [reflexivity|].
    split; [discriminate|].
    destruct (@failure_keeps_buffer_and_publish_cells
                (sample_library 4096 MQTTSuccess MQTTSuccess
                                MQTTBadResponse))
      as [_ Hparse].
    destruct (Hparse PublishIn sample_packet _ IOT_MQTT_BAD_RESPONSE
                     eq_refl ltac:(discriminate))
      as (Hinfo & _ & Hid).
    split; [exact Hinfo | exact Hid].
Defined.

(** C9, the claim as the specification states it, is false: when the
    allocator answers [NULL], the connect builder hands the null buffer to
    [MQTT_SerializeConnect], which refuses it with [MQTTBadParameter], and
    the builder returns [IOT_MQTT_BAD_PARAMETER], not
    [IOT_MQTT_NO_MEMORY]. *)
Lemma allocation_failure_is_not_no_memory :
  ~ (forall (L : Collaborators) (b : builder) (s s' : slots)
            (w w' : world) (t : list call) (st : IotMqttError_t)
            (size : size_t),
        @build L b s w = Done (st, s') w' t ->
        In (IotMqtt_MallocMessage_call size NULL) t ->
        st = IOT_MQTT_NO_MEMORY /\ packet s' = packet s).
Proof.
  intros claim.
  destruct (claim (sample_library NULL MQTTSuccess MQTTSuccess MQTTSuccess)
                  (Connect sample_connect) empty_slots _ initial_world
                  _ _ IOT_MQTT_BAD_PARAMETER 14 eq_refl
                  (or_intror (or_introl eq_refl)))
    as [Hstatus _].
  discriminate Hstatus.
Qed.

Lemma allocation_failure_status_from_serialize_witness :
  exists s' w' t ser,
    queries_size (Connect sample_connect) = true /\
    @build (sample_library NULL MQTTSuccess MQTTSuccess MQTTSuccess)
           (Connect sample_connect) empty_slots initial_world =
    Done (IOT_MQTT_BAD_PARAMETER, s') w' t /\
    In (IotMqtt_MallocMessage_call 14 NULL) (after_size_query t) /\
    In ser (after_size_query t) /\
    serialize_answer ser =
    Some ({| MQTTFixedBuffer.pBuffer := NULL; MQTTFixedBuffer.size := 14 |},
          MQTTBadParameter) /\
    IOT_MQTT_BAD_PARAMETER = convertReturnCode MQTTBadParameter /\
    packet s' = packet empty_slots.
Proof.
  destruct (@allocation_failure_status_from_serialize
              (sample_library NULL MQTTSuccess MQTTSuccess MQTTSuccess)
              (Connect sample_connect) empty_slots _ initial_world _ _
              IOT_MQTT_BAD_PARAMETER 14
              eq_refl eq_refl (or_introl eq_refl))
    as (ser & mqttStatus & Hin & Hser & Hstatus & _ & Hkept & _).
  do 3 eexists. exists ser.
  split; [reflexivity|].
  split; [reflexivity|].
  split; [left; reflexivity|].
  split; [exact Hin|].
  assert (Hms : mqttStatus = MQTTBadParameter).
  { cbn [after_size_query size_query_answer In] in Hin.
    destruct Hin as [E | [E | []]]; subst ser;
      cbn [serialize_answer] in Hser; [discriminate Hser|].
    apply Some_pair_inj in Hser. destruct Hser as [_ Hms].
    symmetry. exact Hms. }
  subst mqttStatus.
  split; [exact Hser|].
  split; [exact Hstatus|].
  apply Hkept. discriminate.
Defined.


(** ** The further properties on the sample library *)

Lemma no_wrapper_returns_timeout_witness :
  (exists s' w' t,
      @build (sample_library 4096 MQTTSuccess MQTTKeepAliveTimeout
                             MQTTSuccess)
             Pingreq empty_slots initial_world =
      Done (IOT_MQTT_SUCCESS, s') w' t /\
      IOT_MQTT_SUCCESS <> IOT_MQTT_TIMEOUT) /\
  (exists pPacket',
      @parse (sample_library 4096 MQTTSuccess MQTTSuccess
                             MQTTNoDataAvailable)
             Pingresp sample_packet = (IOT_MQTT_SUCCESS, pPacket') /\
      IOT_MQTT_SUCCESS <> IOT_MQTT_TIMEOUT).
Proof.
  split.
  - do 3 eexists. split; [reflexivity|].
    destruct (@no_wrapper_returns_timeout
                (sample_library 4096 MQTTSuccess MQTTKeepAliveTimeout
                                MQTTSuccess))
      as (_ & Hbuild & _).
    exact (Hbuild Pingreq empty_slots _ initial_world _ _ _ eq_refl).
  - eexists. split; [reflexivity|].
    destruct (@no_wrapper_returns_timeout
                (sample_library 4096 MQTTSuccess MQTTSuccess
                                MQTTNoDataAvailable))
      as (_ & _ & Hparse).
    exact (Hparse Pingresp sample_packet _ _ eq_refl).
Defined.

Lemma failure_comes_from_the_library_witness :
  (exists s' w' t,
      @build (sample_library 4096 MQTTSuccess MQTTSendFailed MQTTSuccess)
             Disconnect empty_slots initial_world =
      Done (IOT_MQTT_NETWORK_ERROR, s') w' t /\
      IOT_MQTT_NETWORK_ERROR <> IOT_MQTT_SUCCESS /\
      exists c mqttStatus,
        In c t /\ library_status c = Some mqttStatus /\
        mqttStatus <> MQTTSuccess /\
        IOT_MQTT_NETWORK_ERROR = convertReturnCode mqttStatus) /\
  (exists pPacket',
      @parse (sample_library 4096 MQTTSuccess MQTTSuccess MQTTBadResponse)
             Connack sample_packet = (IOT_MQTT_BAD_RESPONSE, pPacket') /\
      IOT_MQTT_BAD_RESPONSE <> IOT_MQTT_SUCCESS /\
      @decoded_status (sample_library 4096 MQTTSuccess MQTTSuccess
                                      MQTTBadResponse)
                      Connack sample_packet <> MQTTSuccess).
Proof.
  split.
  - do 3 eexists. split; [reflexivity|]. split; [discriminate|].
    destruct (@failure_comes_from_the_library
                (sample_library 4096 MQTTSuccess MQTTSendFailed MQTTSuccess))
      as (Hbuild & _).
    exact (Hbuild Disconnect empty_slots _ initial_world _ _
                  IOT_MQTT_NETWORK_ERROR eq_refl ltac:(discriminate)).
  - eexists. split; [reflexivity|]. split; [discriminate|].
    destruct (@failure_comes_from_the_library
                (sample_library 4096 MQTTSuccess MQTTSuccess MQTTBadResponse))
      as (_ & Hparse).
    destruct (Hparse Connack sample_packet _ IOT_MQTT_BAD_RESPONSE eq_refl)
      as [_ Hfail].
    apply Hfail. discriminate.
Defined.

Lemma builder_protocol_witness :
  exists s' w' t,
    queries_size (Unsubscribe sample_subscriptions) = true /\
    @build working_library (Unsubscribe sample_subscriptions)
           empty_slots initial_world =
    Done (IOT_MQTT_SUCCESS, s') w' t /\
    exists q p ser mqttStatus',
      t = [IotMqtt_MallocMessage_call 24 4096; q;
           Atomic_Add_u32_call 2 1;
           IotMqtt_MallocMessage_call 14 p; ser] /\
      size_query_answer q = Some (MQTTSuccess, 14) /\
      serialize_answer ser =
      Some ({| MQTTFixedBuffer.pBuffer := p; MQTTFixedBuffer.size := 14 |},
            mqttStatus') /\
      IOT_MQTT_SUCCESS = convertReturnCode mqttStatus'.
Proof.
  do 3 eexists. split; [reflexivity|]. split; [reflexivity|].
  destruct (@builder_protocol
              working_library (Unsubscribe sample_subscriptions)
              empty_slots _ initial_world _ _ IOT_MQTT_SUCCESS
              eq_refl eq_refl)
    as (pre & q & ms & size & rest & Ht & (n & p0 & Hpre) & Hq & Hrest).
  subst pre. cbn [app] in Ht.
  injection Ht as Hn Hp0 Hq0 Hrest0.
  subst q. cbn [size_query_answer] in Hq.
  apply Some_pair_inj in Hq. destruct Hq as [Hms Hsize]. subst ms size.
  destruct Hrest as [(Hfail & _) | (_ & p & ser & ms' & Hr & Hser & Hst)].
  - exfalso. apply Hfail. reflexivity.
  - rewrite Hr in Hrest0.
    cbn [consumes_identifier app initial_world nextPacketIdentifier]
      in Hrest0.
    injection Hrest0 as Hp Hs.
    eexists _, p, ser, ms'.
    split; [rewrite <- Hp, <- Hs; reflexivity|].
    split; [reflexivity|]. split; [exact Hser | exact Hst].
Defined.

Lemma builder_only_allocates_witness :
  exists s' w' t,
    @build working_library (Subscribe sample_subscriptions)
           empty_slots initial_world =
    Done (IOT_MQTT_SUCCESS, s') w' t /\
    heap w' = [(4352, 14); (4096, 24)] /\
    ~ In (IotMqtt_FreeMessage_call 4096) t.
Proof.
  do 3 eexists. split; [reflexivity|].
  destruct (@builder_only_allocates
              working_library (Subscribe sample_subscriptions)
              empty_slots _ initial_world _ _ IOT_MQTT_SUCCESS eq_refl)
    as (Hheap & _ & Hfree).
  split; [exact Hheap | exact (Hfree 4096)].
Defined.

Lemma subscription_array_stays_allocated_witness :
  exists s' w' t,
    @build working_library (Subscribe sample_subscriptions)
           empty_slots initial_world =
    Done (IOT_MQTT_SUCCESS, s') w' t /\
    sample_subscriptions <> [] /\
    hd_error t = Some (IotMqtt_MallocMessage_call 24 4096) /\
    4096 <> NULL /\
    In (4096, 24) (heap w') /\
    packet s' <> 4096.
Proof.
  do 3 eexists. split; [reflexivity|]. split; [discriminate|].
  destruct (@subscription_array_stays_allocated
              working_library (Subscribe sample_subscriptions)
              sample_subscriptions empty_slots _ initial_world _ _
              IOT_MQTT_SUCCESS (or_introl eq_refl) eq_refl)
    as (p & Hhead & Hnonnull & Hblock & _).
  assert (Hp : p = 4096).
  { cbn in Hhead. injection Hhead. auto. }
  subst p.
  split; [reflexivity|]. split; [discriminate|].
  split; [apply Hblock; discriminate | discriminate].
Defined.

Lemma subscriptions_translated_in_order_witness :
  exists s' w' t c,
    @build working_library (Unsubscribe sample_subscriptions)
           empty_slots initial_world =
    Done (IOT_MQTT_SUCCESS, s') w' t /\
    In c t /\
    call_subject c =
    Some (list_subject
            4096
            [ {| MQTTSubscribeInfo.qos := 1;
                 MQTTSubscribeInfo.pTopicFilter := 12320;
                 MQTTSubscribeInfo.topicFilterLength := 9 |};
              {| MQTTSubscribeInfo.qos := 0;
                 MQTTSubscribeInfo.pTopicFilter := 12330;
                 MQTTSubscribeInfo.topicFilterLength := 8 |} ]
            2) /\
    map subscribe_info sample_subscriptions =
    [ {| MQTTSubscribeInfo.qos := 1;
         MQTTSubscribeInfo.pTopicFilter := 12320;
         MQTTSubscribeInfo.topicFilterLength := 9 |};
      {| MQTTSubscribeInfo.qos := 0;
         MQTTSubscribeInfo.pTopicFilter := 12330;
         MQTTSubscribeInfo.topicFilterLength := 8 |} ].
Proof.
  do 4 eexists. split; [reflexivity|].
  split; [do 4 right; left; reflexivity|].
  split; [reflexivity|].
  destruct (@subscriptions_translated_in_order
              working_library (Unsubscribe sample_subscriptions)
              sample_subscriptions empty_slots _ initial_world _ _
              IOT_MQTT_SUCCESS (or_intror eq_refl) eq_refl)
    as (_ & Hall).
  destruct (Hall _ _ _ _ (or_intror (or_intror (or_intror
                                                   (or_intror
                                                      (or_introl eq_refl)))))
                 eq_refl)
    as [Helements _].
  symmetry. exact Helements.
Defined.

Lemma build_faults_iff_witness :
  @build (sample_library NULL MQTTSuccess MQTTSuccess MQTTSuccess)
         (Unsubscribe sample_subscriptions) empty_slots initial_world =
  Fault /\
  (exists st s' w' t,
      @build (sample_library NULL MQTTSuccess MQTTSuccess MQTTSuccess)
             (Subscribe []) empty_slots initial_world =
      Done (st, s') w' t).
Proof.
  split.
  - apply (@build_faults_iff
             (sample_library NULL MQTTSuccess MQTTSuccess MQTTSuccess)).
    exists sample_subscriptions.
    split; [right; reflexivity|]. split; [discriminate | reflexivity].
  - destruct (@build (sample_library NULL MQTTSuccess MQTTSuccess
                                     MQTTSuccess)
                     (Subscribe []) empty_slots initial_world)
      as [|[st s'] w' t] eqn:Hrun.
    + apply (@build_faults_iff
               (sample_library NULL MQTTSuccess MQTTSuccess MQTTSuccess))
        in Hrun.
      destruct Hrun as (l & [Hb | Hb] & Hl & _).
      * injection Hb as <-. exfalso. apply Hl. reflexivity.
      * discriminate Hb.
    + exists st, s', w', t. reflexivity.
Defined.

Lemma builders_without_identifier_draw_nothing_witness :
  exists s' w' t,
    consumes_identifier (Puback 7) = false /\
    @build working_library (Puback 7)
           {| packet := NULL; packetSize := 0; identifier := 33 |}
           {| nextPacketIdentifier := 9; heap := [] |} =
    Done (IOT_MQTT_SUCCESS, s') w' t /\
    drawn t = [] /\
    nextPacketIdentifier w' = 9 /\
    identifier s' = 33.
Proof.
  do 3 eexists. split; [reflexivity|]. split; [reflexivity|].
  exact (@builders_without_identifier_draw_nothing
           working_library (Puback 7)
           {| packet := NULL; packetSize := 0; identifier := 33 |} _
           {| nextPacketIdentifier := 9; heap := [] |} _ _
           IOT_MQTT_SUCCESS eq_refl eq_refl).
Defined.

Lemma identifier_drawn_once_and_lost_on_failure_witness :
  exists s' w' t q,
    consumes_identifier (Publish (sample_publish 1)) = true /\
    @build (sample_library 4096 MQTTSuccess MQTTNoMemory MQTTSuccess)
           (Publish (sample_publish 1)) empty_slots initial_world =
    Done (IOT_MQTT_NO_MEMORY, s') w' t /\
    In q t /\
    size_query_answer q = Some (MQTTSuccess, 14) /\
    convertReturnCode MQTTSuccess = IOT_MQTT_SUCCESS /\
    IOT_MQTT_NO_MEMORY <> IOT_MQTT_SUCCESS /\
    drawn t = [1] /\
    nextPacketIdentifier w' = 3 /\
    identifier s' = identifier empty_slots.
Proof.
  do 4 eexists. split; [reflexivity|]. split; [reflexivity|].
  split; [left; reflexivity|]. split; [reflexivity|].
  split; [reflexivity|]. split; [discriminate|].
  destruct (@identifier_drawn_once_and_lost_on_failure
              (sample_library 4096 MQTTSuccess MQTTNoMemory MQTTSuccess)
              (Publish (sample_publish 1)) empty_slots _ initial_world _ _
              IOT_MQTT_NO_MEMORY _ MQTTSuccess 14
              eq_refl eq_refl (or_introl eq_refl) eq_refl eq_refl)
    as (Hdrawn & Hcounter & _ & _ & _ & Hkept).
  split; [exact Hdrawn|]. split; [exact Hcounter|].
  apply Hkept. discriminate.
Defined.

Lemma counter_stays_odd_witness :
  exists s' w' t,
    counter_odd initial_world /\
    @build working_library (Publish (sample_publish 0))
           empty_slots initial_world =
    Done (IOT_MQTT_SUCCESS, s') w' t /\
    counter_odd w' /\
    Z.odd (identifier s') = true /\
    0 < identifier s' <= 65535.
Proof.
  assert (Hinitial : counter_odd initial_world).
  { split; [split; [discriminate | reflexivity] | reflexivity]. }
  do 3 eexists. split; [exact Hinitial|]. split; [reflexivity|].
  destruct (@counter_stays_odd
              working_library (Publish (sample_publish 0))
              empty_slots _ initial_world _ _ IOT_MQTT_SUCCESS
              Hinitial eq_refl)
    as (Hcounter & Hid).
  split; [exact Hcounter|].
  exact (Hid eq_refl eq_refl).
Defined.

Lemma consecutive_builds_consecutive_identifiers_witness :
  exists s1' w1 t1 s2' w2 t2,
    @build working_library (Publish (sample_publish 1))
           empty_slots initial_world =
    Done (IOT_MQTT_SUCCESS, s1') w1 t1 /\
    @build working_library (Subscribe sample_subscriptions)
           empty_slots w1 =
    Done (IOT_MQTT_SUCCESS, s2') w2 t2 /\
    identifier s1' = 1 /\
    identifier s2' = (identifier s1' + 2) mod 65536.
Proof.
  do 6 eexists. split; [reflexivity|]. split; [reflexivity|].
  split; [reflexivity|].
  exact (@consecutive_builds_consecutive_identifiers
           working_library
           (Publish (sample_publish 1)) (Subscribe sample_subscriptions)
           empty_slots _ empty_slots _ initial_world _ _ _ _
           eq_refl eq_refl eq_refl eq_refl).
Defined.

Lemma serialize_gets_what_was_measured_witness :
  exists s' w' t q ser buffer,
    @build working_library (Publish (sample_publish 1))
           empty_slots initial_world =
    Done (IOT_MQTT_SUCCESS, s') w' t /\
    In q t /\ size_query_answer q = Some (MQTTSuccess, 14) /\
    In ser t /\ serialize_answer ser = Some (buffer, MQTTSuccess) /\
    call_subject ser = call_subject q /\
    serialize_remaining ser = Some 12 /\
    MQTTFixedBuffer.size buffer = 14.
Proof.
  do 6 eexists. split; [reflexivity|].
  split; [left; reflexivity|]. split; [reflexivity|].
  split; [do 3 right; left; reflexivity|]. split; [reflexivity|].
  exact (@serialize_gets_what_was_measured
           working_library (Publish (sample_publish 1))
           empty_slots _ initial_world _ _ IOT_MQTT_SUCCESS _ _
           MQTTSuccess MQTTSuccess 14 _
           eq_refl (or_introl eq_refl) eq_refl
           (or_intror (or_intror (or_intror (or_introl eq_refl)))) eq_refl).
Defined.

Lemma acknowledgment_parsers_write_the_identifier_only_witness :
  exists pPacket',
    Suback <> PublishIn /\
    @parse working_library Suback sample_packet =
    (IOT_MQTT_SUCCESS, pPacket') /\
    pPacket' = with_packetIdentifier sample_packet 7 /\
    mqttPacket.publishInfo pPacket' = mqttPacket.publishInfo sample_packet /\
    @parse working_library Pingresp sample_packet =
    (IOT_MQTT_SUCCESS, pPacket').
Proof.
  eexists. split; [discriminate|]. split; [reflexivity|].
  destruct (@acknowledgment_parsers_write_the_identifier_only
              working_library Suback sample_packet _ IOT_MQTT_SUCCESS
              ltac:(discriminate) eq_refl)
    as (Hpacket & Hinfo & _ & Hsame).
  split; [exact Hpacket|]. split; [exact Hinfo|].
  apply Hsame; discriminate.
Defined.

(** ** The generator from any state *)

(** X15: from whatever value the counter has, up to 32768 draws in a row
    return pairwise distinct identifiers, draw [k] returning the counter plus
    [2k] cut to 16 bits; so the identifiers of any 32768 consecutive
    identifier-carrying packets differ, not only the first ones of the
    process. *)
Theorem draws_are_distinct
        (n : nat) (w w' : world) (ids : list Z) (t : list call) :
  Z.of_nat n <= 32768 ->
  identifiers n w = Done ids w' t ->
  NoDup ids /\
  length ids = n /\
  (forall k : nat,
      (k < n)%nat ->
      nth_error ids k =
      Some (uint16 (nextPacketIdentifier w + 2 * Z.of_nat k))).
Proof.
  intros Hn Hrun.
  destruct (identifiers_run n w) as (w0 & t0 & Hrun0 & _).
  rewrite Hrun0 in Hrun.
  assert (Hids : ids =
                 map (fun i => uint16 (nextPacketIdentifier w
                                       + 2 * Z.of_nat i))
                     (seq 0 n)).
  { injection Hrun. auto. }
  clear Hrun Hrun0. subst ids.
  split; [|split].
  - apply NoDup_map_NoDup_ForallPairs; [|apply seq_NoDup].
    intros i j Hi Hj E.
    apply in_seq in Hi. apply in_seq in Hj.
    unfold uint16 in E. change (2 ^ 16) with 65536 in E.
    assert (Hd : (nextPacketIdentifier w + 2 * Z.of_nat i
                  - (nextPacketIdentifier w + 2 * Z.of_nat j))
                   mod 65536 = 0).
    { rewrite Zminus_mod, E, Z.sub_diag. reflexivity. }
    apply Z.mod_divide in Hd; [|discriminate].
    destruct Hd as [q Hq]. lia.
  - rewrite length_map, length_seq. reflexivity.
  - intros k Hk.
    rewrite nth_error_map, nth_error_seq.
    destruct (Nat.ltb_spec k n) as [_|?]; [|lia].
    reflexivity.
Qed.

Lemma draws_are_distinct_witness :
  exists ids w' t,
    Z.of_nat 4 <= 32768 /\
    identifiers 4 {| nextPacketIdentifier := 65533; heap := [] |} =
    Done ids w' t /\
    ids = [65533; 65535; 1; 3] /\
    NoDup ids /\
    nth_error ids 2 = Some (uint16 (65533 + 2 * Z.of_nat 2)).
Proof.
  do 3 eexists. split; [lia|]. split; [reflexivity|].
  split; [reflexivity|].
  destruct (@draws_are_distinct
              4 {| nextPacketIdentifier := 65533; heap := [] |} _ _ _
              ltac:(lia) eq_refl)
    as (Hdistinct & _ & Hnth).
  split; [exact Hdistinct|].
  apply (Hnth 2%nat). lia.
Defined.
